(** * nolon localization scripts: extract_missing_translations.py and
      import_translations.py

    A shallow embedding of the two scripts under [src/scripts/] and the
    properties of their specification.

    Modelling choices.
    - A JSON value as [json.load] returns it is a [json]: [None], [bool],
      [int], [float], [str], [list] and [dict].  A Python [dict] keeps
      insertion order, so it is an association list; [dict_get] and
      [dict_set] are lookup and item assignment ([d[k] = v] replaces the value
      in place when [k] is there and appends the pair otherwise).  A [dict]
      never holds a key twice; where a statement needs that, it says
      [NoDup d.*1].
    - The scripts run on documents of any shape, so every Python operation is
      modelled with the exception it raises on a value of the wrong type
      ([result]).
    - The file system is a finite map from path to file content and the
      console a list of printed lines ([world]); [main] is a function in the
      state-and-exception monad [M].  A file holds either a JSON document or
      text that [json.load] rejects; [json.dump] followed by [json.load] is
      taken to be the identity on documents. *)

From Stdlib Require Import ZArith.
From stdpp Require Import base strings list gmap pretty.

Local Open Scope string_scope.

(** ** JSON values *)

(** The float domain of Python (IEEE 754 binary64), as far as the scripts can
    tell its values apart. *)
Inductive pyfloat : Type :=
| FZero (negative : bool)
| FInfinity (negative : bool)
| FNaN
| FFinite (negative : bool) (mantissa : positive) (exponent : Z).

#[local] Set Warnings "-register-all".
Inductive json : Type :=
| JNull
| JBool (b : bool)
| JInt (n : Z)
| JFloat (x : pyfloat)
| JStr (s : string)
| JList (l : list json)
| JDict (d : list (string * json)).

(** ** Python dictionaries *)

Section dict.
Context {V : Type}.

Fixpoint dict_get (k : string) (d : list (string * V)) : option V :=
  match d with
  | [] => None
  | (k', v) :: d' => if decide (k = k') then Some v else dict_get k d'
  end.

Fixpoint dict_set (k : string) (v : V) (d : list (string * V))
  : list (string * V) :=
  match d with
  | [] => [(k, v)]
  | (k', v') :: d' =>
      if decide (k = k') then (k, v) :: d' else (k', v') :: dict_set k v d'
  end.

Definition dict_mem (k : string) (d : list (string * V)) : bool :=
  bool_decide (is_Some (dict_get k d)).
End dict.

(** ** Exceptions *)

Inductive exn : Type :=
| AttributeError
| TypeError
| KeyError
| FileNotFoundError
| JSONDecodeError.

Inductive result (A : Type) : Type :=
| Return (a : A)
| Raise (e : exn).
Arguments Return {A} a.
Arguments Raise {A} e.

Global Instance result_ret : MRet result := @Return.
Global Instance result_bind : MBind result := λ A B f r,
  match r with
  | Return a => f a
  | Raise e => Raise e
  end.

(** ** Python operations on JSON values *)

(** [bool(v)], the truth value tested by [if v:]. *)
Definition truthy (v : json) : bool :=
  match v with
  | JNull => false
  | JBool b => b
  | JInt n => negb (n =? 0)%Z
  | JFloat (FZero _) => false
  | JFloat _ => true
  | JStr s => negb (bool_decide (s = ""))
  | JList l => match l with [] => false | _ :: _ => true end
  | JDict d => match d with [] => false | _ :: _ => true end
  end.

(** [v == s] for a string literal [s]: a [str] equals only an equal [str]. *)
Definition py_eq_str (v : json) (s : string) : bool :=
  match v with
  | JStr s' => bool_decide (s' = s)
  | _ => false
  end.

(** [needle in hay] on two [str]: substring test. *)
Fixpoint is_substring (needle hay : string) : bool :=
  String.prefix needle hay ||
  match hay with
  | EmptyString => false
  | String _ hay' => is_substring needle hay'
  end.

(** [obj.get(key, default)]: only [dict] has the method. *)
Definition py_get (obj : json) (key : string) (dflt : json) : result json :=
  match obj with
  | JDict d => Return (default dflt (dict_get key d))
  | _ => Raise AttributeError
  end.

(** [obj.items()], the pairs in insertion order. *)
Definition py_items (obj : json) : result (list (string * json)) :=
  match obj with
  | JDict d => Return d
  | _ => Raise AttributeError
  end.

(** [key in container] for a [str] key: key membership on a [dict], element
    membership on a [list], substring on a [str]; the other values are not
    iterable. *)
Definition py_contains (key : string) (container : json) : result bool :=
  match container with
  | JDict d => Return (dict_mem key d)
  | JList l => Return (existsb (λ x, py_eq_str x key) l)
  | JStr s => Return (is_substring key s)
  | _ => Raise TypeError
  end.

(** [container[key]] for a [str] key. *)
Definition py_getitem (container : json) (key : string) : result json :=
  match container with
  | JDict d =>
      match dict_get key d with
      | Some v => Return v
      | None => Raise KeyError
      end
  | _ => Raise TypeError
  end.

(** [container[key] = v] for a [str] key; the result is the container after
    the assignment. *)
Definition py_setitem (container : json) (key : string) (v : json)
  : result json :=
  match container with
  | JDict d => Return (JDict (dict_set key v d))
  | _ => Raise TypeError
  end.

(** A [for] loop over a list with a loop-carried state; an exception in the
    body ends the loop. *)
Fixpoint for_each {m : Type → Type} `{!MBind m, !MRet m} {S A : Type}
  (body : S → A → m S) (items : list A) (s : S) : m S :=
  match items with
  | [] => mret s
  | x :: items' => s' ← body s x; for_each body items' s'
  end.

(** ** The world: files and console *)

Inductive file : Type :=
| Text (raw : string)
| Document (doc : json).

Record world : Type := World {
  files : gmap string file;
  console : list string
}.

Definition M (A : Type) : Type := world → result A * world.

Global Instance M_ret : MRet M := λ A a w, (Return a, w).
Global Instance M_bind : MBind M := λ A B f m w,
  match m w with
  | (Return a, w') => f a w'
  | (Raise e, w') => (Raise e, w')
  end.

(** A pure computation run inside [M]. *)
Definition lift {A : Type} (r : result A) : M A := λ w, (r, w).

(** [os.path.exists(path)] *)
Definition path_exists (path : string) : M bool :=
  λ w, (Return (bool_decide (is_Some (files w !! path))), w).

(** [print(line)] *)
Definition print (line : string) : M unit :=
  λ w, (Return (), World (files w) (console w ++ [line])).

(** [with open(path, 'r') as f: json.load(f)] *)
Definition load_json (path : string) : M json :=
  λ w, match files w !! path with
       | Some (Document doc) => (Return doc, w)
       | Some (Text _) => (Raise JSONDecodeError, w)
       | None => (Raise FileNotFoundError, w)
       end.

(** [with open(path, 'w') as f: json.dump(doc, f, ...)] *)
Definition dump_json (path : string) (doc : json) : M unit :=
  λ w, (Return (), World (<[path := Document doc]> (files w)) (console w)).

(** [os.path.join(a, b)] for a relative [b]. *)
Definition path_join (a b : string) : string :=
  match a with
  | EmptyString => b
  | _ => if String.prefix "/" (String.rev a) then a +:+ b else a +:+ "/" +:+ b
  end.

(** ** extract_missing_translations.py *)

Module Extractor.

Definition XCSTRINGS_PATH (SCRIPT_DIR : string) : string :=
  path_join SCRIPT_DIR "../nolon/Localizable.xcstrings".
Definition OUTPUT_PATH (SCRIPT_DIR : string) : string :=
  path_join SCRIPT_DIR "missing_translations.json".

(** Lines 20-29: the value of [is_missing] for one entry of [strings]. *)
Definition is_missing (value : json) : result bool :=
  localizations ← py_get value "localizations" (JDict []);
  zh_hans ← py_get localizations "zh-Hans" JNull;
  if truthy zh_hans then
    string_unit ← py_get zh_hans "stringUnit" (JDict []);
    state ← py_get string_unit "state" JNull;
    if py_eq_str state "translated" then mret false else mret true
  else mret true.

(** Lines 20-37: the body of the loop over [strings.items()]. *)
Definition loop_body (missing_items : list (string * json))
  (item : string * json) : result (list (string * json)) :=
  let '(key, value) := item in
  missing ← is_missing value;
  if missing : bool then
    comment ← py_get value "comment" (JStr "");
    mret (dict_set key (JDict [("source", JStr key); ("comment", comment)])
            missing_items)
  else mret missing_items.

(** Lines 16-37: from the loaded document to [missing_items]. *)
Definition missing_translations (data : json)
  : result (list (string * json)) :=
  strings ← py_get data "strings" (JDict []);
  items ← py_items strings;
  for_each loop_body items [].

Definition main (SCRIPT_DIR : string) : M unit :=
  found ← path_exists (XCSTRINGS_PATH SCRIPT_DIR);
  if negb found then
    print ("Error: " +:+ XCSTRINGS_PATH SCRIPT_DIR +:+ " not found.")
  else
    data ← load_json (XCSTRINGS_PATH SCRIPT_DIR);
    missing_items ← lift (missing_translations data);
    print ("Found " +:+ pretty (length missing_items)
           +:+ " missing translations.");;
    dump_json (OUTPUT_PATH SCRIPT_DIR) (JDict missing_items);;
    print ("Exported to " +:+ OUTPUT_PATH SCRIPT_DIR).

End Extractor.

(** ** import_translations.py *)

Module Importer.

Definition XCSTRINGS_PATH (SCRIPT_DIR : string) : string :=
  path_join SCRIPT_DIR "../nolon/Localizable.xcstrings".
Definition TRANSLATIONS_PATH (SCRIPT_DIR : string) : string :=
  path_join SCRIPT_DIR "translated_items.json".

(** Lines 33-38: the object assigned to the ["zh-Hans"] slot. *)
Definition zh_hans_record (translation : json) : json :=
  JDict [("stringUnit",
          JDict [("state", JStr "translated"); ("value", translation)])].

(** Lines 30-38 on the object [strings[key]].  The assignments mutate the
    entry and its [localizations] object in place; here the entry after the
    two assignments is rebuilt, the last [py_setitem] storing the mutated
    [localizations] object back where it already is. *)
Definition update_entry (entry translation : json) : result json :=
  has_localizations ← py_contains "localizations" entry;
  entry ← (if negb has_localizations
           then py_setitem entry "localizations" (JDict [])
           else mret entry);
  localizations ← py_getitem entry "localizations";
  localizations ← py_setitem localizations "zh-Hans"
                    (zh_hans_record translation);
  py_setitem entry "localizations" localizations.

Definition warning (key : string) : string :=
  "Warning: Key '" +:+ key +:+ "' not found in xcstrings file.".

(** Lines 29-41: the body of the loop over [translations.items()], on the
    loop-carried [strings] and [updated_count]. *)
Definition loop_body (st : json * nat) (item : string * json)
  : M (json * nat) :=
  let '(strings, updated_count) := st in
  let '(key, translation) := item in
  found ← lift (py_contains key strings);
  if found : bool then
    entry ← lift (py_getitem strings key);
    entry ← lift (update_entry entry translation);
    strings ← lift (py_setitem strings key entry);
    mret (strings, S updated_count)
  else
    print (warning key);;
    mret (strings, updated_count).

(** [strings] is the object [data["strings"]] when [data] has that key, so
    [data] sees its mutations; otherwise it is the fresh default of [get]
    and [data] is as loaded. *)
Definition data_after (data strings : json) : json :=
  match data with
  | JDict d =>
      if dict_mem "strings" d then JDict (dict_set "strings" strings d)
      else data
  | _ => data
  end.

Definition main (SCRIPT_DIR : string) : M unit :=
  found ← path_exists (XCSTRINGS_PATH SCRIPT_DIR);
  if negb found then
    print ("Error: " +:+ XCSTRINGS_PATH SCRIPT_DIR +:+ " not found.")
  else
    found ← path_exists (TRANSLATIONS_PATH SCRIPT_DIR);
    if negb found then
      print ("Error: " +:+ TRANSLATIONS_PATH SCRIPT_DIR +:+ " not found.")
    else
      data ← load_json (XCSTRINGS_PATH SCRIPT_DIR);
      translations ← load_json (TRANSLATIONS_PATH SCRIPT_DIR);
      strings ← lift (py_get data "strings" (JDict []));
      items ← lift (py_items translations);
      st ← for_each loop_body items (strings, 0);
      dump_json (XCSTRINGS_PATH SCRIPT_DIR) (data_after data st.1);;
      print ("Successfully updated " +:+ pretty st.2
             +:+ " translations in " +:+ XCSTRINGS_PATH SCRIPT_DIR).

End Importer.

(** ** Vocabulary of the specification *)

(** The value under [key] of an object; nothing on any other value. *)
Definition field (key : string) (v : json) : option json :=
  match v with
  | JDict d => dict_get key d
  | _ => None
  end.

(** The value reached from [v] through nested objects along [path]. *)
Fixpoint lookup_path (path : list string) (v : json) : option json :=
  match path with
  | [] => Some v
  | key :: path' => field key v ≫= lookup_path path'
  end.

(** The criterion of the specification for one string entry: a target-locale
    localization record exists and its [stringUnit.state] is exactly
    ["translated"]. *)
Definition spec_translated (entry : json) : Prop :=
  lookup_path ["localizations"; "zh-Hans"; "stringUnit"; "state"] entry
  = Some (JStr "translated").

Definition is_dict (v : json) : bool :=
  match v with
  | JDict _ => true
  | _ => false
  end.

(** An optional field that is an object when it is there. *)
Definition absent_or_dict (o : option json) : bool :=
  match o with
  | None => true
  | Some v => is_dict v
  end.

(** The entries the extractor reads without an exception: an object, whose
    [localizations], when present, is an object, whose ["zh-Hans"] value,
    when present and true as a condition, is an object, whose [stringUnit],
    when present, is an object. *)
Definition entry_readable (entry : json) : bool :=
  is_dict entry &&
  match field "localizations" entry with
  | None => true
  | Some localizations =>
      is_dict localizations &&
      match field "zh-Hans" localizations with
      | None => true
      | Some zh_hans =>
          negb (truthy zh_hans) ||
          (is_dict zh_hans && absent_or_dict (field "stringUnit" zh_hans))
      end
  end.

(** The entries the importer updates without an exception: an object whose
    [localizations], when present, is an object. *)
Definition entry_writable (entry : json) : bool :=
  is_dict entry && absent_or_dict (field "localizations" entry).

(** The dictionary of an entry after lines 30-38 of the importer, in closed
    form: [ImporterFacts.update_entry_dict] relates it to
    [Importer.update_entry]. *)
Definition updated (d : list (string * json)) (translation : json)
  : list (string * json) :=
  let localizations :=
    match dict_get "localizations" d with
    | Some (JDict l) => l
    | _ => []
    end in
  dict_set "localizations"
    (JDict (dict_set "zh-Hans" (Importer.zh_hans_record translation)
              localizations))
    d.

(** What an update may change in an entry: every field other than
    [localizations] is as before, so is the record of every locale other than
    zh-Hans, and the zh-Hans record is as before or is a record whose only
    field is a [stringUnit] in state ["translated"]. *)
Definition entry_frame (entry entry' : json) : Prop :=
  (∀ f, f ≠ "localizations" → field f entry' = field f entry) ∧
  (∀ locale, locale ≠ "zh-Hans" →
     lookup_path ["localizations"; locale] entry'
     = lookup_path ["localizations"; locale] entry) ∧
  (lookup_path ["localizations"; "zh-Hans"] entry'
   = lookup_path ["localizations"; "zh-Hans"] entry
   ∨ ∃ translation,
       lookup_path ["localizations"; "zh-Hans"] entry'
       = Some (JDict [("stringUnit",
                       JDict [("state", JStr "translated");
                              ("value", translation)])])).

(** The pairs of the translations input whose key is among [keys], and the
    others. *)
Definition known_pairs (keys : list string) (translations : list (string * json))
  : list (string * json) :=
  filter (λ item, item.1 ∈ keys) translations.

Definition unknown_pairs (keys : list string)
  (translations : list (string * json)) : list (string * json) :=
  filter (λ item, item.1 ∉ keys) translations.

(** The item the extractor records under [key] for an entry it finds missing
    (lines 32-37), whether an entry is found missing, and the report for the
    entries [strs]: one item for each entry found missing, in the order of
    [strs]. *)
Definition report_entry (key : string) (entry : json) : json :=
  JDict [("source", JStr key);
         ("comment", default (JStr "") (field "comment" entry))].

Definition found_missing (entry : json) : bool :=
  match Extractor.is_missing entry with
  | Return true => true
  | _ => false
  end.

Definition report_of (strs : list (string * json)) : list (string * json) :=
  (λ item, (item.1, report_entry item.1 item.2))
    <$> filter (λ item, found_missing item.2) strs.

(** ** Concrete scenarios *)

Definition scenario_dir : string := "/repo/scripts".

(** The entries of a catalog: one without localizations, one translated,
    and one in review that also has a French record. *)
Definition scenario_strings : list (string * json) :=
  [("Hello", JDict [("comment", JStr "greeting")]);
   ("Bye",
    JDict
      [("localizations",
        JDict
          [("zh-Hans",
            JDict
              [("stringUnit",
                JDict [("state", JStr "translated");
                       ("value", JStr "zaijian")])])])]);
   ("Open",
    JDict
      [("comment", JStr "menu item");
       ("localizations",
        JDict
          [("fr",
            JDict
              [("stringUnit",
                JDict [("state", JStr "translated");
                       ("value", JStr "Ouvrir")])]);
           ("zh-Hans",
            JDict
              [("stringUnit",
                JDict [("state", JStr "needs_review");
                       ("value", JStr "kai")]);
               ("substitutions", JDict [])])])])].

(** The catalog document, with a top-level field of its own. *)
Definition scenario_fields : list (string * json) :=
  [("sourceLanguage", JStr "en"); ("strings", JDict scenario_strings)].

Definition scenario_catalog : json := JDict scenario_fields.

Definition scenario_translations : list (string * json) :=
  [("Hello", JStr "nihao"); ("Open", JStr "dakai"); ("Quit", JStr "tuichu")].

(** A world with the catalog only, and one with both input files. *)
Definition scenario_world_catalog : world :=
  World {[ Extractor.XCSTRINGS_PATH scenario_dir
             := Document scenario_catalog ]} [].

Definition scenario_world : world :=
  World
    (<[ Importer.TRANSLATIONS_PATH scenario_dir
          := Document (JDict scenario_translations) ]>
       {[ Importer.XCSTRINGS_PATH scenario_dir
            := Document scenario_catalog ]})
    [].

(** A catalog without a top-level ["strings"]. *)
Definition scenario_no_strings : list (string * json) :=
  [("sourceLanguage", JStr "en"); ("version", JStr "1.0")].

Definition scenario_world_no_strings : world :=
  World
    (<[ Importer.TRANSLATIONS_PATH scenario_dir
          := Document (JDict scenario_translations) ]>
       {[ Importer.XCSTRINGS_PATH scenario_dir
            := Document (JDict scenario_no_strings) ]})
    [].

(** A world whose catalog has an entry with [localizations: null], and a
    world whose catalog has a [strings] that is no mapping, with an empty
    translations input. *)
Definition scenario_unwritable_strings : list (string * json) :=
  [("Hello", JDict [("localizations", JNull)])].

Definition scenario_world_unwritable : world :=
  World
    (<[ Importer.TRANSLATIONS_PATH scenario_dir
          := Document (JDict [("Quit", JStr "tuichu");
                              ("Hello", JStr "nihao")]) ]>
       {[ Importer.XCSTRINGS_PATH scenario_dir
            := Document
                 (JDict [("strings", JDict scenario_unwritable_strings)]) ]})
    [].

Definition scenario_world_empty_input : world :=
  World
    (<[ Importer.TRANSLATIONS_PATH scenario_dir := Document (JDict []) ]>
       {[ Importer.XCSTRINGS_PATH scenario_dir
            := Document (JDict [("strings", JNull)]) ]})
    [].

(** A translations input made from the keys of the report, and the world
    that has it beside the catalog. *)
Definition scenario_report_translations : list (string * json) :=
  [("Open", JStr "dakai"); ("Hello", JStr "nihao")].

Definition scenario_world_from_report : world :=
  World
    (<[ Importer.TRANSLATIONS_PATH scenario_dir
          := Document (JDict scenario_report_translations) ]>
       {[ Importer.XCSTRINGS_PATH scenario_dir
            := Document scenario_catalog ]})
    [].

(** The values that [in] cannot search: [None], booleans and numbers. *)
Definition not_iterable (v : json) : bool :=
  match v with
  | JNull | JBool _ | JInt _ | JFloat _ => true
  | _ => false
  end.

(** A world whose catalog is [{"strings": strings}], with the translations
    input of the scenario. *)
Definition scenario_world_strings (strings : json) : world :=
  World
    (<[ Importer.TRANSLATIONS_PATH scenario_dir
          := Document (JDict scenario_translations) ]>
       {[ Importer.XCSTRINGS_PATH scenario_dir
            := Document (JDict [("strings", strings)]) ]})
    [].

(** * Properties *)

(** ** Dictionaries *)

Section dict_facts.
Context {V : Type}.
Implicit Types (k : string) (v : V) (d : list (string * V)).

Lemma dict_get_set_eq k v d : dict_get k (dict_set k v d) = Some v.
Proof.
  induction d as [|[k' v'] d IH]; simpl.
  - by rewrite decide_True.
  - destruct (decide (k = k')) as [->|Hne]; simpl.
    + by rewrite decide_True.
    + by rewrite decide_False.
Qed.

Lemma dict_get_set_ne k k' v d :
  k ≠ k' → dict_get k' (dict_set k v d) = dict_get k' d.
Proof.
  intros Hne. induction d as [|[k0 v0] d IH]; simpl.
  - by rewrite decide_False.
  - destruct (decide (k = k0)) as [->|Hne0]; simpl.
    + by rewrite !decide_False.
    + by rewrite IH.
Qed.

Lemma dict_set_same k v d : dict_get k d = Some v → dict_set k v d = d.
Proof.
  induction d as [|[k' v'] d IH]; simpl; [done|].
  destruct (decide (k = k')) as [->|Hne]; [congruence|].
  intros Hget. by rewrite IH.
Qed.

Lemma dict_set_keys k v d :
  is_Some (dict_get k d) → (dict_set k v d).*1 = d.*1.
Proof.
  induction d as [|[k' v'] d IH]; csimpl.
  - by intros [? ?].
  - destruct (decide (k = k')) as [->|Hne]; csimpl; [done|].
    intros Hget. by rewrite IH.
Qed.

Lemma dict_set_keys_elem k k' v d :
  k' ∈ (dict_set k v d).*1 ↔ k' = k ∨ k' ∈ d.*1.
Proof.
  induction d as [|[k0 v0] d IH]; csimpl.
  - set_solver.
  - destruct (decide (k = k0)) as [->|Hne]; csimpl; set_solver.
Qed.

Lemma dict_get_elem_of k v d : dict_get k d = Some v → (k, v) ∈ d.
Proof.
  induction d as [|[k' v'] d IH]; simpl; [done|].
  destruct (decide (k = k')) as [->|Hne].
  - intros [= ->]. left.
  - intros Hget. right. auto.
Qed.

Lemma dict_get_None k d : dict_get k d = None ↔ k ∉ d.*1.
Proof.
  induction d as [|[k' v'] d IH]; csimpl.
  - set_solver.
  - destruct (decide (k = k')) as [->|Hne]; set_solver.
Qed.

Lemma dict_get_NoDup k v d :
  NoDup d.*1 → (k, v) ∈ d → dict_get k d = Some v.
Proof.
  induction d as [|[k' v'] d IH]; csimpl.
  - intros _ Hin. by apply elem_of_nil in Hin.
  - intros [Hnotin Hnodup]%NoDup_cons Hin.
    apply elem_of_cons in Hin as [[= -> ->]|Hin].
    + by rewrite decide_True.
    + rewrite decide_False; [by apply IH|].
      intros ->. apply Hnotin. apply list_elem_of_fmap. by exists (k', v).
Qed.

Lemma dict_set_set k v v' d :
  dict_set k v (dict_set k v' d) = dict_set k v d.
Proof.
  induction d as [|[k0 v0] d IH]; simpl.
  - by rewrite decide_True.
  - destruct (decide (k = k0)) as [->|Hne]; simpl.
    + by rewrite decide_True.
    + by rewrite decide_False, IH.
Qed.

Lemma dict_get_app k d1 d2 :
  dict_get k (d1 ++ d2) =
    match dict_get k d1 with
    | Some v => Some v
    | None => dict_get k d2
    end.
Proof.
  induction d1 as [|[k0 v0] d1 IH]; simpl; [done|].
  by destruct (decide (k = k0)).
Qed.

Lemma dict_get_is_Some k d : is_Some (dict_get k d) ↔ k ∈ d.*1.
Proof.
  rewrite <- not_eq_None_Some, dict_get_None.
  split; [apply dec_stable|auto].
Qed.

Lemma dict_mem_true k d : dict_mem k d = true ↔ is_Some (dict_get k d).
Proof. unfold dict_mem. by rewrite bool_decide_eq_true. Qed.

Lemma dict_mem_false k d : dict_mem k d = false ↔ dict_get k d = None.
Proof.
  unfold dict_mem. rewrite bool_decide_eq_false, eq_None_not_Some. done.
Qed.
End dict_facts.

(** ** The result monad and the loop *)

Lemma for_each_cons {m : Type → Type} `{!MBind m, !MRet m} {S A : Type}
  (body : S → A → m S) (x : A) (items : list A) (s : S) :
  for_each body (x :: items) s = body s x ≫= for_each body items.
Proof. done. Qed.

Lemma result_bind_Return {A B : Type} (f : A → result B) (r : result A)
  (b : B) :
  r ≫= f = Return b ↔ ∃ a, r = Return a ∧ f a = Return b.
Proof.
  destruct r as [a|e]; simpl.
  - split; [by exists a|]. by intros (a' & [= <-] & Hf).
  - split; [done|]. by intros (a' & [=] & _).
Qed.

(** ** Python operations *)

Lemma falsy_no_field (v : json) (key : string) :
  truthy v = false → field key v = None.
Proof. destruct v as [| | | | | |[|? ?]]; simpl; done. Qed.

Lemma py_eq_str_true (v : json) (s : string) :
  py_eq_str v s = true ↔ v = JStr s.
Proof.
  destruct v; simpl; try (split; done).
  rewrite bool_decide_eq_true. split; congruence.
Qed.

(** Case analysis on a value that a method call or an item access needs to
    be a [dict]: the other constructors raise. *)
Ltac dict_or_raise v :=
  destruct v as [| | | | | |?]; simpl; try done.

(** ** The extractor *)

Module ExtractorFacts.
Import Extractor.

(** [is_missing] on an entry that is read without an exception agrees with
    the criterion of the specification. *)
Lemma is_missing_spec (entry : json) (b : bool) :
  is_missing entry = Return b → (b = true ↔ ¬ spec_translated entry).
Proof.
  unfold is_missing, spec_translated.
  dict_or_raise entry.
  destruct (dict_get "localizations" _) as [localizations|]; simpl;
    [|intros [= <-]; done].
  dict_or_raise localizations.
  destruct (dict_get "zh-Hans" _) as [zh_hans|]; simpl;
    [|intros [= <-]; done].
  destruct (truthy zh_hans) eqn:Htruthy; simpl;
    [|intros [= <-]; by rewrite (falsy_no_field _ _ Htruthy)].
  dict_or_raise zh_hans.
  destruct (dict_get "stringUnit" _) as [string_unit|]; simpl;
    [|intros [= <-]; done].
  dict_or_raise string_unit.
  destruct (dict_get "state" _) as [state|]; simpl;
    [|intros [= <-]; done].
  destruct (py_eq_str state "translated") eqn:Heq; intros [= <-].
  - apply py_eq_str_true in Heq as ->. split; [done|]. by intros [].
  - split; [|done]. intros _ [= ->].
    by rewrite (proj2 (py_eq_str_true _ _)) in Heq.
Qed.

(** The entries on which [is_missing] raises nothing. *)
Lemma is_missing_readable (entry : json) :
  entry_readable entry = true ↔ ∃ b, is_missing entry = Return b.
Proof.
  unfold is_missing, entry_readable.
  destruct entry as [| | | | | |d]; simpl;
    try (split; [done|by intros [? ?]]).
  destruct (dict_get "localizations" _) as [localizations|]; simpl;
    [|split; eauto].
  destruct localizations as [| | | | | |d0]; simpl;
    try (split; [done|by intros [? ?]]).
  destruct (dict_get "zh-Hans" _) as [zh_hans|]; simpl; [|split; eauto].
  destruct (truthy zh_hans) eqn:Htruthy; simpl; [|split; eauto].
  destruct zh_hans as [| | | | | |d1]; simpl;
    try (split; [done|by intros [? ?]]).
  destruct (dict_get "stringUnit" _) as [string_unit|]; simpl;
    [|split; eauto].
  destruct string_unit as [| | | | | |d2]; simpl;
    try (split; [done|by intros [? ?]]).
  split; [intros _|done]. destruct (py_eq_str _ _); eauto.
Qed.

Lemma loop_body_Return acc key value report :
  loop_body acc (key, value) = Return report →
  ∃ b, is_missing value = Return b ∧
    ((b = false ∧ report = acc) ∨
     (b = true ∧ ∃ comment,
        report = dict_set key
                   (JDict [("source", JStr key); ("comment", comment)])
                   acc)).
Proof.
  unfold loop_body. intros (b & Hb & Hrest)%result_bind_Return.
  exists b. split; [done|]. destruct b.
  - right. split; [done|].
    apply result_bind_Return in Hrest as (comment & _ & [= <-]). eauto.
  - left. by injection Hrest.
Qed.

(** The keys of [missing_items] after the loop: those it had before and
    those of the items found missing. *)
Lemma loop_report items : ∀ acc report,
  for_each loop_body items acc = Return report →
  ∀ k, k ∈ report.*1 ↔
       k ∈ acc.*1 ∨
       ∃ entry, (k, entry) ∈ items ∧ is_missing entry = Return true.
Proof.
  induction items as [|[key value] items IH]; intros acc report.
  - intros [= <-] k. split; [auto|]. intros [?|(? & Hin & _)]; [done|].
    by apply elem_of_nil in Hin.
  - rewrite for_each_cons.
    intros (acc' & Hbody & Hrest)%result_bind_Return k.
    rewrite (IH _ _ Hrest k).
    apply loop_body_Return in Hbody
      as (b & Hb & [[-> ->]|[-> [comment ->]]]).
    + split.
      * intros [?|(entry & Hin & Hm)]; [auto|]. right. exists entry.
        split; [by right|done].
      * intros [?|(entry & Hin & Hm)]; [auto|].
        apply elem_of_cons in Hin as [[= -> ->]|Hin]; [congruence|].
        right. eauto.
    + rewrite dict_set_keys_elem. split.
      * intros [[->|?]|(entry & Hin & Hm)]; [|auto|].
        -- right. exists value. split; [left|done].
        -- right. exists entry. split; [by right|done].
      * intros [?|(entry & Hin & Hm)]; [auto|].
        apply elem_of_cons in Hin as [[= -> ->]|Hin]; [auto|].
        right. eauto.
Qed.

Lemma loop_body_total acc key value :
  entry_readable value = true →
  ∃ acc', loop_body acc (key, value) = Return acc'.
Proof.
  intros [b Hb]%is_missing_readable. unfold loop_body. rewrite Hb. simpl.
  destruct b; [|by eauto].
  destruct value; try done. simpl. eauto.
Qed.

(** The loop raises nothing when every entry is readable. *)
Lemma loop_readable_total items : ∀ acc,
  Forall (λ item, entry_readable item.2 = true) items →
  ∃ report, for_each loop_body items acc = Return report.
Proof.
  induction items as [|[key value] items IH]; intros acc Hall.
  - by exists acc.
  - apply Forall_cons in Hall as [Hvalue Hall]. simpl in Hvalue.
    destruct (loop_body_total acc key value Hvalue) as [acc' Hbody].
    rewrite for_each_cons, Hbody. apply IH, Hall.
Qed.

(** [main] on a world whose catalog file holds a document. *)
Lemma main_reads_catalog dir w data :
  files w !! XCSTRINGS_PATH dir = Some (Document data) →
  main dir w =
    match missing_translations data with
    | Return missing_items =>
        (Return (),
         World
           (<[OUTPUT_PATH dir := Document (JDict missing_items)]> (files w))
           (console w ++
              ["Found " +:+ pretty (length missing_items)
               +:+ " missing translations.";
               "Exported to " +:+ OUTPUT_PATH dir]))
    | Raise e => (Raise e, w)
    end.
Proof.
  intros Hfile. unfold main, path_exists, load_json, lift, print, dump_json.
  unfold mbind, M_bind. simpl. rewrite !Hfile.
  rewrite bool_decide_true by eauto. simpl. rewrite Hfile.
  destruct (missing_translations data) as [missing_items|e]; simpl; [|done].
  by rewrite <- app_assoc.
Qed.

Lemma main_missing_file dir w :
  files w !! XCSTRINGS_PATH dir = None →
  main dir w =
    (Return (),
     World (files w)
       (console w ++ ["Error: " +:+ XCSTRINGS_PATH dir +:+ " not found."])).
Proof.
  intros Hfile. unfold main, path_exists, print.
  unfold mbind, M_bind. simpl. rewrite Hfile.
  rewrite bool_decide_false by (by intros [? ?]). done.
Qed.

(** [main] on a catalog whose entries are all readable: it returns, having
    written a report whose keys are those of the entries found missing. *)
Lemma main_report dir w data strs :
  files w !! XCSTRINGS_PATH dir = Some (Document data) →
  py_get data "strings" (JDict []) = Return (JDict strs) →
  Forall (λ item, entry_readable item.2 = true) strs →
  ∃ report,
    main dir w =
      (Return (),
       World (<[OUTPUT_PATH dir := Document (JDict report)]> (files w))
         (console w ++
            ["Found " +:+ pretty (length report)
             +:+ " missing translations.";
             "Exported to " +:+ OUTPUT_PATH dir])) ∧
    ∀ key, key ∈ report.*1 ↔
           ∃ entry, (key, entry) ∈ strs ∧ is_missing entry = Return true.
Proof.
  intros Hfile Hstrings Hshape.
  destruct (loop_readable_total strs [] Hshape) as [report Hloop].
  exists report. split.
  - rewrite (main_reads_catalog _ _ _ Hfile).
    unfold missing_translations. rewrite Hstrings. simpl.
    by rewrite Hloop.
  - intros key. rewrite (loop_report _ _ _ Hloop key). split.
    + intros [Hnil|?]; [by apply elem_of_nil in Hnil|done].
    + by right.
Qed.
End ExtractorFacts.

(** ** The importer *)

Module ImporterFacts.
Import Importer.

Lemma update_entry_dict d translation :
  update_entry (JDict d) translation =
    match dict_get "localizations" d with
    | None | Some (JDict _) => Return (JDict (updated d translation))
    | Some _ => Raise TypeError
    end.
Proof.
  unfold update_entry, updated. simpl.
  destruct (dict_get "localizations" d) as [localizations|] eqn:Hget.
  - rewrite (proj2 (dict_mem_true _ _)) by eauto. simpl. rewrite Hget. simpl.
    by destruct localizations.
  - rewrite (proj2 (dict_mem_false _ _)) by done. simpl.
    rewrite dict_get_set_eq. simpl. by rewrite dict_set_set.
Qed.

Lemma update_entry_not_dict entry translation :
  is_dict entry = false → update_entry entry translation = Raise TypeError.
Proof.
  unfold update_entry.
  destruct entry as [| | | | s|l|]; simpl; try done; intros _.
  - by destruct (is_substring _ _).
  - by destruct (existsb _ _).
Qed.

Lemma update_entry_writable entry translation :
  entry_writable entry = true ↔
  ∃ entry', update_entry entry translation = Return entry'.
Proof.
  unfold entry_writable. destruct (is_dict entry) eqn:Hdict; simpl.
  - destruct entry; try done. rewrite update_entry_dict. simpl.
    destruct (dict_get "localizations" d) as [[]|]; simpl;
      split; eauto; try done; by intros [? ?].
  - rewrite update_entry_not_dict by done. split; [done|by intros [? ?]].
Qed.

Lemma update_entry_Return entry translation entry' :
  update_entry entry translation = Return entry' →
  ∃ d, entry = JDict d ∧ entry' = JDict (updated d translation).
Proof.
  destruct (is_dict entry) eqn:Hdict.
  - destruct entry; try done. rewrite update_entry_dict.
    intros Hrun. exists d. split; [done|].
    destruct (dict_get "localizations" d) as [[]|]; congruence.
  - by rewrite update_entry_not_dict.
Qed.

Lemma updated_updated d t1 t2 : updated (updated d t1) t2 = updated d t2.
Proof.
  unfold updated. rewrite dict_get_set_eq. by rewrite !dict_set_set.
Qed.

Lemma updated_localizations d t :
  dict_get "localizations" (updated d t) =
    Some (JDict (dict_set "zh-Hans" (zh_hans_record t)
                   match dict_get "localizations" d with
                   | Some (JDict l) => l
                   | _ => []
                   end)).
Proof. unfold updated. by rewrite dict_get_set_eq. Qed.

Lemma updated_other_field d t f :
  f ≠ "localizations" → dict_get f (updated d t) = dict_get f d.
Proof. intros Hne. unfold updated. by rewrite dict_get_set_ne. Qed.

(** A second update overwrites the first one. *)
Lemma update_entry_twice entry t1 t2 entry1 :
  update_entry entry t1 = Return entry1 →
  update_entry entry1 t2 = update_entry entry t2.
Proof.
  intros Hrun. pose proof Hrun as (d & -> & ->)%update_entry_Return.
  rewrite update_entry_dict in Hrun.
  rewrite !update_entry_dict, updated_localizations, updated_updated.
  by destruct (dict_get "localizations" d) as [[]|].
Qed.

(** An update with the text the entry was last updated with changes
    nothing. *)
Lemma update_entry_again entry t entry1 :
  update_entry entry t = Return entry1 →
  update_entry entry1 t = Return entry1.
Proof.
  intros Hrun. by rewrite (update_entry_twice _ _ t _ Hrun).
Qed.

Lemma update_entry_writable_after entry t entry1 :
  update_entry entry t = Return entry1 → entry_writable entry1 = true.
Proof.
  intros Hrun. apply (proj2 (update_entry_writable entry1 t)).
  exists entry1. by apply (update_entry_again entry).
Qed.

(** [loop_body] on a [strings] that is a [dict], in closed form. *)
Lemma loop_body_dict strs c key t w :
  loop_body (JDict strs, c) (key, t) w =
    match dict_get key strs with
    | None =>
        (Return (JDict strs, c),
         World (files w) (console w ++ [warning key]))
    | Some entry =>
        match update_entry entry t with
        | Return entry' => (Return (JDict (dict_set key entry' strs), S c), w)
        | Raise e => (Raise e, w)
        end
    end.
Proof.
  unfold loop_body, lift, print, mbind, M_bind. simpl.
  destruct (dict_get key strs) as [entry|] eqn:Hget.
  - rewrite (proj2 (dict_mem_true _ _)) by eauto. simpl.
    by destruct (update_entry entry t).
  - by rewrite (proj2 (dict_mem_false _ _)).
Qed.

(** [loop_body] on a [strings] that is no [dict]: a warning when the
    membership test is false, an exception otherwise. *)
Lemma loop_body_not_dict strings c key t w :
  is_dict strings = false →
  loop_body (strings, c) (key, t) w =
    match py_contains key strings with
    | Return false =>
        (Return (strings, c),
         World (files w) (console w ++ [warning key]))
    | Return true => (Raise TypeError, w)
    | Raise e => (Raise e, w)
    end.
Proof.
  intros Hdict. unfold loop_body, lift, print, mbind, M_bind.
  destruct strings; try done; simpl.
  - by destruct (is_substring key s).
  - by destruct (existsb _ l).
Qed.

Lemma for_each_M_cons {S A : Type} (body : S → A → M S) (x : A)
  (items : list A) (s : S) (w : world) :
  for_each body (x :: items) s w =
    match body s x w with
    | (Return s', w') => for_each body items s' w'
    | (Raise e, w') => (Raise e, w')
    end.
Proof. done. Qed.

(** The loop on a [strings] that is a [dict]: it stays a [dict] with the
    same keys in the same order, the counter grows by the number of pairs
    with a known key, a warning is printed for each other pair, and no file
    is touched. *)
Lemma loop_dict trans : ∀ strs c w st' w',
  for_each loop_body trans (JDict strs, c) w = (Return st', w') →
  ∃ strs', st'.1 = JDict strs' ∧ strs'.*1 = strs.*1 ∧
    st'.2 = c + length (known_pairs strs.*1 trans) ∧
    files w' = files w ∧
    console w' =
      (console w ++ (warning <$> (unknown_pairs strs.*1 trans).*1))%list.
Proof.
  unfold known_pairs, unknown_pairs.
  induction trans as [|[key t] trans IH]; intros strs c w st' w'.
  - intros [= <- <-]. exists strs. simpl.
    by rewrite Nat.add_0_r, app_nil_r.
  - rewrite for_each_M_cons, loop_body_dict.
    destruct (dict_get key strs) as [entry|] eqn:Hget.
    + destruct (update_entry entry t) as [entry'|]; [|done].
      intros (strs' & ? & Hkeys & ? & ? & ?)%IH.
      assert (key ∈ strs.*1) by (apply dict_get_is_Some; eauto).
      rewrite dict_set_keys in * by eauto.
      exists strs'. rewrite filter_cons_True, filter_cons_False by auto.
      simpl. split_and!; [done..|lia|done|done].
    + intros (strs' & ? & Hkeys & ? & ? & Hcons)%IH.
      apply dict_get_None in Hget.
      exists strs'. rewrite filter_cons_False, filter_cons_True by auto.
      simpl in *. split_and!; [done..|].
      by rewrite Hcons, <- app_assoc.
Qed.

(** The entries after the loop: the entry of a key is the one before the
    loop updated with the last text the input gives for that key, and is
    untouched when the input has none. *)
Lemma loop_entries trans : ∀ strs c w strs' c' w',
  for_each loop_body trans (JDict strs, c) w
  = (Return (JDict strs', c'), w') →
  ∀ k, match dict_get k (reverse trans), dict_get k strs with
       | Some t, Some entry =>
           ∃ entry', update_entry entry t = Return entry' ∧
                     dict_get k strs' = Some entry'
       | _, o => dict_get k strs' = o
       end.
Proof.
  induction trans as [|[key t] trans IH]; intros strs c w strs' c' w'.
  - intros [= <- <- <-] k. simpl. by destruct (dict_get k strs).
  - rewrite for_each_M_cons, loop_body_dict, reverse_cons.
    intros Hrun k. rewrite dict_get_app. simpl.
    destruct (dict_get key strs) as [entry|] eqn:Hget.
    + destruct (update_entry entry t) as [entry1|] eqn:Hupd; [|done].
      specialize (IH _ _ _ _ _ _ Hrun k).
      destruct (decide (k = key)) as [->|Hne].
      * rewrite dict_get_set_eq in IH. rewrite Hget.
        destruct (dict_get key (reverse trans)) as [t'|].
        -- by rewrite (update_entry_twice _ _ t' _ Hupd) in IH.
        -- eauto.
      * rewrite dict_get_set_ne in IH by done.
        by destruct (dict_get k (reverse trans)).
    + specialize (IH _ _ _ _ _ _ Hrun k).
      destruct (dict_get k (reverse trans)) as [t'|]; [done|].
      destruct (decide (k = key)) as [->|Hne]; [|done].
      rewrite Hget in *. by destruct (dict_get key strs').
Qed.

(** The loop on a [strings] that is no [dict] changes nothing but the
    console. *)
Lemma loop_not_dict trans : ∀ strings c w st' w',
  is_dict strings = false →
  for_each loop_body trans (strings, c) w = (Return st', w') →
  st' = (strings, c) ∧ files w' = files w ∧
  console w' = (console w ++ (warning <$> trans.*1))%list.
Proof.
  induction trans as [|[key t] trans IH]; intros strings c w st' w' Hdict.
  - intros [= <- <-]. by rewrite app_nil_r.
  - rewrite for_each_M_cons, loop_body_not_dict by done.
    destruct (py_contains key strings) as [[]|]; [done| |done].
    intros (-> & -> & ->)%IH; [|done]. simpl.
    by rewrite <- app_assoc.
Qed.

(** The loop raises nothing when the entries it updates are writable. *)
Lemma loop_writable_total trans : ∀ strs c w,
  (∀ k entry, k ∈ trans.*1 → dict_get k strs = Some entry →
              entry_writable entry = true) →
  ∃ st' w', for_each loop_body trans (JDict strs, c) w = (Return st', w').
Proof.
  induction trans as [|[key t] trans IH]; intros strs c w Hw.
  - by eexists _, _.
  - rewrite for_each_M_cons, loop_body_dict.
    destruct (dict_get key strs) as [entry|] eqn:Hget.
    + assert (entry_writable entry = true) as Hentry
        by (apply (Hw key); [left|done]).
      apply (update_entry_writable _ t) in Hentry as [entry1 Hupd].
      rewrite Hupd. apply IH. intros k e Hk.
      destruct (decide (k = key)) as [->|Hne].
      * rewrite dict_get_set_eq. intros [= <-].
        by apply (update_entry_writable_after entry t).
      * rewrite dict_get_set_ne by done. apply Hw. by right.
    + apply IH. intros k e Hk. apply Hw. by right.
Qed.

(** [main] on a world whose two input files hold documents. *)
Lemma main_reads_inputs dir w data translations :
  files w !! XCSTRINGS_PATH dir = Some (Document data) →
  files w !! TRANSLATIONS_PATH dir = Some (Document translations) →
  main dir w =
    match py_get data "strings" (JDict []) with
    | Raise e => (Raise e, w)
    | Return strings =>
        match py_items translations with
        | Raise e => (Raise e, w)
        | Return items =>
            match for_each loop_body items (strings, 0) w with
            | (Raise e, w1) => (Raise e, w1)
            | (Return st, w1) =>
                (Return (),
                 World
                   (<[XCSTRINGS_PATH dir :=
                        Document (data_after data st.1)]> (files w1))
                   (console w1 ++
                      ["Successfully updated " +:+ pretty st.2
                       +:+ " translations in " +:+ XCSTRINGS_PATH dir]))
            end
        end
    end.
Proof.
  intros Hdata Htrans.
  unfold main, path_exists, load_json, lift, print, dump_json.
  unfold mbind at 1 2 3 4 5 6 7 8. unfold M_bind. simpl.
  rewrite !Hdata. rewrite bool_decide_true by eauto. simpl.
  rewrite !Htrans. rewrite bool_decide_true by eauto. simpl.
  rewrite ?Hdata, ?Htrans.
  destruct (py_get data "strings" (JDict [])) as [strings|]; [|done].
  destruct (py_items translations) as [items|]; [|done].
  by destruct (for_each loop_body items (strings, 0) w) as [[st|] w1].
Qed.

Lemma main_missing_catalog dir w :
  files w !! XCSTRINGS_PATH dir = None →
  main dir w =
    (Return (),
     World (files w)
       (console w ++ ["Error: " +:+ XCSTRINGS_PATH dir +:+ " not found."])).
Proof.
  intros Hfile. unfold main, path_exists, print.
  unfold mbind, M_bind. simpl. rewrite Hfile.
  rewrite bool_decide_false by (by intros [? ?]). done.
Qed.

Lemma main_missing_translations dir w :
  is_Some (files w !! XCSTRINGS_PATH dir) →
  files w !! TRANSLATIONS_PATH dir = None →
  main dir w =
    (Return (),
     World (files w)
       (console w ++
          ["Error: " +:+ TRANSLATIONS_PATH dir +:+ " not found."])).
Proof.
  intros Hdata Hfile. unfold main, path_exists, print.
  unfold mbind, M_bind. simpl.
  rewrite bool_decide_true by done. simpl. rewrite Hfile.
  rewrite bool_decide_false by (by intros [? ?]). done.
Qed.

Lemma path_join_inj a b1 b2 : path_join a b1 = path_join a b2 → b1 = b2.
Proof.
  unfold path_join. destruct a as [|c a]; [done|].
  destruct (String.prefix _ _).
  - apply (inj (String.app _)).
  - intros H%(inj (String.app _)). by apply (inj (String.app "/")) in H.
Qed.

Lemma paths_distinct dir : XCSTRINGS_PATH dir ≠ TRANSLATIONS_PATH dir.
Proof. by intros H%path_join_inj. Qed.

Lemma dict_get_reverse_NoDup {V : Type} (k : string) (v : V)
  (d : list (string * V)) :
  NoDup d.*1 → (k, v) ∈ d → dict_get k (reverse d) = Some v.
Proof.
  intros Hnodup Hin. apply dict_get_NoDup.
  - by rewrite fmap_reverse, reverse_Permutation.
  - by apply elem_of_reverse.
Qed.

Lemma dict_get_reverse_None {V : Type} (k : string) (d : list (string * V)) :
  k ∉ d.*1 → dict_get k (reverse d) = None.
Proof.
  intros Hnotin. apply dict_get_None.
  by rewrite fmap_reverse, elem_of_reverse.
Qed.

(** A pass over pairs each of which leaves [strings] as it is leaves it as
    it is, and touches no file. *)
Lemma loop_fixed trans : ∀ strings c w,
  (∀ k t c w, (k, t) ∈ trans →
     ∃ c' w', loop_body (strings, c) (k, t) w = (Return (strings, c'), w')
              ∧ files w' = files w) →
  ∃ c' w', for_each loop_body trans (strings, c) w
           = (Return (strings, c'), w') ∧ files w' = files w.
Proof.
  induction trans as [|[key t] trans IH]; intros strings c w Hstep.
  - by eexists _, _.
  - rewrite for_each_M_cons.
    destruct (Hstep key t c w) as (c1 & w1 & -> & <-); [left|].
    apply IH. intros k t' c2 w2 Hin. apply Hstep. by right.
Qed.

(** After a pass over an input without repeated keys, a second pass over
    the same input changes nothing: [strings] is a [dict] here. *)
Lemma loop_dict_again trans strs c w strs' c' w' :
  NoDup trans.*1 →
  for_each loop_body trans (JDict strs, c) w
  = (Return (JDict strs', c'), w') →
  ∀ c2 w2, ∃ c2' w2',
    for_each loop_body trans (JDict strs', c2) w2
    = (Return (JDict strs', c2'), w2') ∧ files w2' = files w2.
Proof.
  intros Hnodup Hrun c2 w2. apply loop_fixed. intros k t c3 w3 Hin.
  pose proof (loop_entries _ _ _ _ _ _ _ Hrun k) as Hk.
  rewrite (dict_get_reverse_NoDup k t trans) in Hk by done.
  rewrite loop_body_dict.
  destruct (dict_get k strs) as [entry|].
  - destruct Hk as (entry' & Hupd & Hget). rewrite Hget.
    rewrite (update_entry_again _ _ _ Hupd).
    rewrite dict_set_same by done. eauto.
  - rewrite Hk. eauto.
Qed.

(** The same when [strings] is no [dict]. *)
Lemma loop_not_dict_again trans : ∀ strings c w st' w',
  is_dict strings = false →
  for_each loop_body trans (strings, c) w = (Return st', w') →
  ∀ c2 w2, ∃ c2' w2',
    for_each loop_body trans (strings, c2) w2
    = (Return (strings, c2'), w2') ∧ files w2' = files w2.
Proof.
  induction trans as [|[key t] trans IH]; intros strings c w st' w' Hdict.
  - intros _ c2 w2. by eexists _, _.
  - rewrite for_each_M_cons, loop_body_not_dict by done.
    destruct (py_contains key strings) as [[]|] eqn:Hin; [done| |done].
    intros Hrun c2 w2.
    rewrite for_each_M_cons, loop_body_not_dict, Hin by done.
    edestruct (IH _ _ _ _ _ Hdict Hrun c2) as (c2' & w2' & -> & Hfiles).
    by eexists _, _.
Qed.

(** The loop over pairs none of whose keys is in [strings]: a warning for
    each pair, in order, and nothing else. *)
Lemma loop_unknown trans : ∀ strs c w,
  (∀ k, k ∈ trans.*1 → dict_get k strs = None) →
  for_each loop_body trans (JDict strs, c) w =
    (Return (JDict strs, c),
     World (files w) (console w ++ (warning <$> trans.*1))).
Proof.
  induction trans as [|[key t] trans IH]; intros strs c w Hnone.
  - simpl. rewrite app_nil_r. by destruct w.
  - rewrite for_each_M_cons, loop_body_dict.
    rewrite (Hnone key) by left.
    rewrite IH by (intros k Hk; apply Hnone; by right).
    simpl. by rewrite <- app_assoc.
Qed.

Lemma entry_frame_refl entry : entry_frame entry entry.
Proof. split_and!; auto. Qed.

(** An update stays within the frame. *)
Lemma update_entry_frame entry t entry' :
  update_entry entry t = Return entry' → entry_frame entry entry'.
Proof.
  intros Hrun. pose proof Hrun as (d & -> & ->)%update_entry_Return.
  rewrite update_entry_dict in Hrun. split_and!.
  - intros f Hf. simpl. by apply updated_other_field.
  - intros locale Hlocale. simpl. rewrite updated_localizations. simpl.
    rewrite dict_get_set_ne by done.
    by destruct (dict_get "localizations" d) as [[]|].
  - right. exists t. simpl. rewrite updated_localizations. simpl.
    by rewrite dict_get_set_eq.
Qed.

(** An updated entry is translated for the extractor. *)
Lemma is_missing_updated d t :
  Extractor.is_missing (JDict (updated d t)) = Return false.
Proof.
  unfold Extractor.is_missing. simpl. rewrite updated_localizations. simpl.
  by rewrite dict_get_set_eq.
Qed.

Lemma entry_readable_updated d t : entry_readable (JDict (updated d t)) = true.
Proof.
  apply ExtractorFacts.is_missing_readable. exists false.
  apply is_missing_updated.
Qed.

Lemma entry_readable_writable entry :
  entry_readable entry = true → entry_writable entry = true.
Proof.
  unfold entry_readable, entry_writable.
  destruct (is_dict entry); simpl; [|done].
  destruct (field "localizations" entry) as [localizations|]; simpl; [|done].
  by destruct (is_dict localizations).
Qed.

Lemma elem_of_dict_set {V : Type} (k k0 : string) (v v0 : V)
  (d : list (string * V)) :
  (k, v) ∈ dict_set k0 v0 d → (k, v) = (k0, v0) ∨ (k, v) ∈ d.
Proof.
  induction d as [|[k1 v1] d IH]; simpl.
  - intros ->%list_elem_of_singleton. by left.
  - destruct (decide (k0 = k1)) as [->|Hne].
    + intros [->|Hin]%elem_of_cons; [by left|right; by right].
    + intros [->|Hin]%elem_of_cons; [right; left|].
      destruct (IH Hin) as [?|?]; [by left|right; by right].
Qed.

(** What a run of [main] that returns went through. *)
Lemma main_Return dir w data translations w' :
  files w !! XCSTRINGS_PATH dir = Some (Document data) →
  files w !! TRANSLATIONS_PATH dir = Some (Document translations) →
  main dir w = (Return (), w') →
  ∃ d trans strings st w1,
    data = JDict d ∧ translations = JDict trans ∧
    strings = default (JDict []) (dict_get "strings" d) ∧
    for_each loop_body trans (strings, 0) w = (Return st, w1) ∧
    w' = World
           (<[XCSTRINGS_PATH dir := Document (data_after data st.1)]>
              (files w1))
           (console w1 ++
              ["Successfully updated " +:+ pretty st.2
               +:+ " translations in " +:+ XCSTRINGS_PATH dir]).
Proof.
  intros Hdata Htrans. rewrite (main_reads_inputs _ _ _ _ Hdata Htrans).
  destruct data as [| | | | | |d]; try done.
  destruct translations as [| | | | | |trans]; try done. simpl.
  destruct (for_each loop_body trans _ w) as [[st|] w1] eqn:Hloop; [|done].
  intros [= <-]. by eexists d, trans, _, st, w1.
Qed.

(** [main] on a catalog whose [strings] is a [dict] in which the entries
    to update are writable. *)
Lemma main_dict dir w d trans strs :
  files w !! XCSTRINGS_PATH dir = Some (Document (JDict d)) →
  files w !! TRANSLATIONS_PATH dir = Some (Document (JDict trans)) →
  py_get (JDict d) "strings" (JDict []) = Return (JDict strs) →
  (∀ key entry, key ∈ trans.*1 → dict_get key strs = Some entry →
                entry_writable entry = true) →
  ∃ strs' w1,
    for_each loop_body trans (JDict strs, 0) w
    = (Return (JDict strs', length (known_pairs strs.*1 trans)), w1) ∧
    strs'.*1 = strs.*1 ∧
    main dir w =
      (Return (),
       World
         (<[XCSTRINGS_PATH dir
              := Document (data_after (JDict d) (JDict strs'))]> (files w))
         (console w ++ (warning <$> (unknown_pairs strs.*1 trans).*1) ++
            ["Successfully updated "
             +:+ pretty (length (known_pairs strs.*1 trans))
             +:+ " translations in " +:+ XCSTRINGS_PATH dir])).
Proof.
  intros Hdata Htrans Hstrings Hwritable.
  destruct (loop_writable_total trans strs 0 w Hwritable) as ([s' c] & w1 & Hloop).
  pose proof (loop_dict _ _ _ _ _ _ Hloop)
    as (strs' & Hs & Hkeys & Hc & Hfiles & Hconsole).
  simpl in Hs, Hc. subst s' c.
  exists strs', w1. split_and!; [done..|].
  rewrite (main_reads_inputs _ _ _ _ Hdata Htrans), Hstrings. simpl.
  rewrite Hloop. simpl. rewrite Hfiles, Hconsole.
  by rewrite <- app_assoc.
Qed.

(** The loop adds no entry, removes none, and keeps every entry within
    the frame. *)
Lemma loop_frame trans strs c w strs' c' w' :
  for_each loop_body trans (JDict strs, c) w
  = (Return (JDict strs', c'), w') →
  ∀ key, option_Forall2 entry_frame (dict_get key strs)
           (dict_get key strs').
Proof.
  intros Hloop key.
  pose proof (loop_entries _ _ _ _ _ _ _ Hloop key) as Hkey.
  destruct (dict_get key (reverse trans)) as [t|],
    (dict_get key strs) as [entry|].
  - destruct Hkey as (entry' & Hupd & ->). constructor.
    by apply (update_entry_frame _ t).
  - rewrite Hkey. constructor.
  - rewrite Hkey. constructor. apply entry_frame_refl.
  - rewrite Hkey. constructor.
Qed.

(** Storing back the [strings] that was read gives the document that was
    read. *)
Lemma data_after_same d :
  data_after (JDict d) (default (JDict []) (dict_get "strings" d))
  = JDict d.
Proof.
  unfold data_after. destruct (dict_get "strings" d) as [strings|] eqn:Hget.
  - rewrite (proj2 (dict_mem_true _ _)) by (rewrite Hget; eauto). simpl.
    by rewrite dict_set_same.
  - by rewrite (proj2 (dict_mem_false _ _)).
Qed.

(** The document after a run and the [strings] it then has. *)
Lemma data_after_strings d strs strs' :
  default (JDict []) (dict_get "strings" d) = JDict strs →
  strs'.*1 = strs.*1 →
  (∀ f, f ≠ "strings" →
     field f (data_after (JDict d) (JDict strs')) = dict_get f d) ∧
  default (JDict []) (field "strings" (data_after (JDict d) (JDict strs')))
  = JDict strs'.
Proof.
  intros Hstrings Hkeys. unfold data_after.
  destruct (dict_get "strings" d) as [strings|] eqn:Hget.
  - rewrite (proj2 (dict_mem_true _ _)) by (rewrite Hget; eauto). simpl.
    split; [|by rewrite dict_get_set_eq].
    intros f Hf. by rewrite dict_get_set_ne.
  - rewrite (proj2 (dict_mem_false _ _)) by done. simpl. rewrite Hget.
    simpl in *. injection Hstrings as <-. by destruct strs'.
Qed.

(** [main] raises when an input file holds no JSON document. *)
Lemma main_unreadable dir w fx ft :
  files w !! XCSTRINGS_PATH dir = Some fx →
  files w !! TRANSLATIONS_PATH dir = Some ft →
  (∃ raw, fx = Text raw) ∨ (∃ raw, ft = Text raw) →
  (main dir w).1 = Raise JSONDecodeError.
Proof.
  intros Hfx Hft Htext.
  unfold main, path_exists, load_json, lift, print, dump_json.
  unfold mbind at 1 2 3 4 5 6 7 8. unfold M_bind. simpl.
  rewrite !Hfx. rewrite bool_decide_true by eauto. simpl.
  rewrite !Hft. rewrite bool_decide_true by eauto. simpl.
  rewrite ?Hfx, ?Hft.
  destruct fx as [raw|data]; [done|]. simpl. rewrite ?Hft.
  destruct ft as [raw|translations]; [done|].
  by destruct Htext as [[? ?]|[? ?]].
Qed.

(** A run on a world where the loop leaves [strings] as it is leaves every
    file as it is. *)
Lemma main_again dir w d trans :
  files w !! XCSTRINGS_PATH dir = Some (Document (JDict d)) →
  files w !! TRANSLATIONS_PATH dir = Some (Document (JDict trans)) →
  (∃ c' w',
     for_each loop_body trans
       (default (JDict []) (dict_get "strings" d), 0) w
     = (Return (default (JDict []) (dict_get "strings" d), c'), w')
     ∧ files w' = files w) →
  ∃ w2, main dir w = (Return (), w2) ∧ files w2 = files w.
Proof.
  intros Hdata Htrans (c' & w' & Hloop & Hfiles).
  rewrite (main_reads_inputs _ _ _ _ Hdata Htrans). unfold py_get, py_items.
  rewrite Hloop.
  eexists. split; [done|]. cbn [fst files].
  rewrite data_after_same, Hfiles. by apply insert_id.
Qed.

Lemma data_after_dict d strings : ∃ d', data_after (JDict d) strings = JDict d'.
Proof. unfold data_after. destruct (dict_mem "strings" d); eauto. Qed.
End ImporterFacts.

(** * The claims of the specification *)

(** C1. For every entry of the catalog's [strings] mapping the extractor
    classifies the entry as missing if and only if it is not the case that a
    zh-Hans localization record exists whose [stringUnit.state] is exactly
    ["translated"], and exactly the keys of the missing entries appear in the
    report written to the output path. *)
Theorem C1_extractor_reports_exactly_missing
  (dir : string) (w : world) (data : json) (strs : list (string * json)) :
  files w !! Extractor.XCSTRINGS_PATH dir = Some (Document data) →
  py_get data "strings" (JDict []) = Return (JDict strs) →
  Forall (λ item, entry_readable item.2 = true) strs →
  ∃ report w',
    Extractor.main dir w = (Return (), w') ∧
    files w' !! Extractor.OUTPUT_PATH dir = Some (Document (JDict report)) ∧
    (∀ key entry, (key, entry) ∈ strs →
       ∃ missing, Extractor.is_missing entry = Return missing ∧
                  (missing = true ↔ ¬ spec_translated entry)) ∧
    (∀ key, key ∈ report.*1 ↔
            ∃ entry, (key, entry) ∈ strs ∧ ¬ spec_translated entry).
Proof.
  intros Hfile Hstrings Hshape.
  destruct (ExtractorFacts.loop_readable_total strs [] Hshape) as [report Hloop].
  assert (∀ key entry, (key, entry) ∈ strs →
            ∃ missing, Extractor.is_missing entry = Return missing ∧
                       (missing = true ↔ ¬ spec_translated entry)) as Hentry.
  { intros key entry Hin.
    rewrite Forall_forall in Hshape. specialize (Hshape _ Hin). simpl in Hshape.
    apply ExtractorFacts.is_missing_readable in Hshape as [missing Hm].
    exists missing. split; [done|]. by apply ExtractorFacts.is_missing_spec. }
  eexists report, _. split_and!.
  - rewrite (ExtractorFacts.main_reads_catalog _ _ _ Hfile).
    unfold Extractor.missing_translations. rewrite Hstrings. simpl.
    by rewrite Hloop.
  - simpl. by rewrite lookup_insert_eq.
  - done.
  - intros key. rewrite (ExtractorFacts.loop_report _ _ _ Hloop key).
    split.
    + intros [Hnil|(entry & Hin & Hm)]; [by apply elem_of_nil in Hnil|].
      exists entry. split; [done|].
      by apply (ExtractorFacts.is_missing_spec _ _ Hm).
    + intros (entry & Hin & Hspec). right. exists entry. split; [done|].
      destruct (Hentry _ _ Hin) as (missing & Hm & Hiff).
      apply Hiff in Hspec as ->. done.
Qed.

Lemma C1_witness :
  files scenario_world_catalog !! Extractor.XCSTRINGS_PATH scenario_dir
  = Some (Document scenario_catalog) ∧
  py_get scenario_catalog "strings" (JDict [])
  = Return (JDict scenario_strings) ∧
  ∃ report w',
    Extractor.main scenario_dir scenario_world_catalog = (Return (), w') ∧
    files w' !! Extractor.OUTPUT_PATH scenario_dir
    = Some (Document (JDict report)) ∧
    (∀ key entry, (key, entry) ∈ scenario_strings →
       ∃ missing, Extractor.is_missing entry = Return missing ∧
                  (missing = true ↔ ¬ spec_translated entry)) ∧
    (∀ key, key ∈ report.*1 ↔
            ∃ entry, (key, entry) ∈ scenario_strings ∧
                     ¬ spec_translated entry).
Proof.
  split; [reflexivity|]. split; [reflexivity|].
  apply (C1_extractor_reports_exactly_missing scenario_dir
           scenario_world_catalog scenario_catalog scenario_strings);
    [reflexivity|reflexivity|repeat constructor].
Defined.

(** C2. For every pair (key, translated text) of the translations input
    whose key is in the catalog's [strings] mapping, the importer makes sure
    the entry has a [localizations] object (an empty one when it had none),
    sets its zh-Hans entry to exactly
    [{stringUnit: {state: "translated", value: text}}] and counts the pair;
    after the last pair it writes the whole catalog document back to the
    catalog path. *)
Theorem C2_importer_sets_translations
  (dir : string) (w : world) (d strs trans : list (string * json)) :
  files w !! Importer.XCSTRINGS_PATH dir = Some (Document (JDict d)) →
  files w !! Importer.TRANSLATIONS_PATH dir = Some (Document (JDict trans)) →
  dict_get "strings" d = Some (JDict strs) →
  NoDup trans.*1 →
  (∀ key entry, key ∈ trans.*1 → dict_get key strs = Some entry →
                entry_writable entry = true) →
  ∃ strs',
    Importer.main dir w =
      (Return (),
       World
         (<[Importer.XCSTRINGS_PATH dir
              := Document (JDict (dict_set "strings" (JDict strs') d))]>
            (files w))
         (console w ++
            (Importer.warning <$> (unknown_pairs strs.*1 trans).*1) ++
            ["Successfully updated "
             +:+ pretty (length (known_pairs strs.*1 trans))
             +:+ " translations in " +:+ Importer.XCSTRINGS_PATH dir])) ∧
    ∀ key translation entry,
      (key, translation) ∈ trans → dict_get key strs = Some entry →
      ∃ localizations,
        lookup_path [key; "localizations"] (JDict strs')
        = Some (JDict localizations) ∧
        dict_get "zh-Hans" localizations
        = Some (JDict [("stringUnit",
                        JDict [("state", JStr "translated");
                               ("value", translation)])]) ∧
        (field "localizations" entry = None →
         localizations
         = [("zh-Hans",
             JDict [("stringUnit",
                     JDict [("state", JStr "translated");
                            ("value", translation)])])]).
Proof.
  intros Hdata Htrans Hstrings Hnodup Hwritable.
  destruct (ImporterFacts.main_dict dir w d trans strs Hdata Htrans)
    as (strs' & w1 & Hloop & Hkeys & Hmain); [|done|].
  { simpl. by rewrite Hstrings. }
  exists strs'. split.
  - rewrite Hmain. simpl.
    by rewrite (proj2 (dict_mem_true _ _)) by (rewrite Hstrings; eauto).
  - intros key translation entry Hin Hget.
    pose proof (ImporterFacts.loop_entries _ _ _ _ _ _ _ Hloop key) as Hkey.
    rewrite (ImporterFacts.dict_get_reverse_NoDup key translation trans),
      Hget in Hkey by done.
    destruct Hkey as (entry' & Hupd & Hget').
    apply ImporterFacts.update_entry_Return in Hupd as (de & -> & ->).
    eexists. simpl. rewrite Hget'. simpl.
    rewrite ImporterFacts.updated_localizations. simpl.
    split_and!; [done|by rewrite dict_get_set_eq|].
    simpl in *. by intros ->.
Qed.

Lemma C2_witness :
  dict_get "strings" scenario_fields = Some (JDict scenario_strings) ∧
  NoDup scenario_translations.*1 ∧
  ∃ strs',
    (Importer.main scenario_dir scenario_world).1 = Return () ∧
    files (Importer.main scenario_dir scenario_world).2
    !! Importer.XCSTRINGS_PATH scenario_dir
    = Some (Document
              (JDict [("sourceLanguage", JStr "en");
                      ("strings", JDict strs')])) ∧
    lookup_path ["Hello"; "localizations"] (JDict strs')
    = Some (JDict
              [("zh-Hans",
                JDict [("stringUnit",
                        JDict [("state", JStr "translated");
                               ("value", JStr "nihao")])])]).
Proof.
  split; [reflexivity|].
  split; [apply (bool_decide_unpack (NoDup _)); vm_compute; exact I|].
  destruct (C2_importer_sets_translations scenario_dir scenario_world
              scenario_fields scenario_strings scenario_translations)
    as (strs' & Hmain & Hpairs).
  - reflexivity.
  - reflexivity.
  - reflexivity.
  - apply (bool_decide_unpack (NoDup _)); vm_compute; exact I.
  - intros key entry _ Hget.
    assert (Forall (λ item, entry_writable item.2 = true) scenario_strings)
      as Hall by (repeat constructor).
    rewrite Forall_forall in Hall.
    apply (Hall (key, entry)). by apply dict_get_elem_of.
  - destruct (Hpairs "Hello" (JStr "nihao")
                (JDict [("comment", JStr "greeting")]))
      as (localizations & Hloc & _ & Hnone); [left|reflexivity|].
    exists strs'. rewrite Hmain. split_and!.
    + done.
    + apply lookup_insert_eq.
    + rewrite Hloc, Hnone; done.
Defined.

(** C3, as the specification states it, fails: an entry whose
    [localizations] is [null] makes the lookup raise. *)
Lemma C3_counterexample :
  Extractor.is_missing (JDict [("localizations", JNull)])
  = Raise AttributeError.
Proof. reflexivity. Qed.

(** C3, amended. On every entry that is an object whose [localizations], when
    present, is an object, whose zh-Hans value, when present and true as a
    condition, is an object, and whose [stringUnit], when present, is an
    object, the missing-determination completes without an exception, and
    an absent sub-field on the way to [stringUnit.state] makes the entry
    count as missing. *)
Theorem C3_is_missing_total_on_readable (entry : json) :
  entry_readable entry = true →
  ∃ missing,
    Extractor.is_missing entry = Return missing ∧
    (lookup_path ["localizations"; "zh-Hans"; "stringUnit"; "state"] entry
     = None → missing = true).
Proof.
  intros [missing Hm]%ExtractorFacts.is_missing_readable.
  exists missing. split; [done|]. intros Hnone.
  apply (ExtractorFacts.is_missing_spec _ _ Hm).
  unfold spec_translated. by rewrite Hnone.
Qed.

Lemma C3_witness :
  entry_readable (JDict [("localizations", JDict [("zh-Hans", JDict [])])])
  = true ∧
  ∃ missing,
    Extractor.is_missing
      (JDict [("localizations", JDict [("zh-Hans", JDict [])])])
    = Return missing ∧
    (lookup_path ["localizations"; "zh-Hans"; "stringUnit"; "state"]
       (JDict [("localizations", JDict [("zh-Hans", JDict [])])])
     = None → missing = true).
Proof.
  split; [reflexivity|].
  apply (C3_is_missing_total_on_readable
           (JDict [("localizations", JDict [("zh-Hans", JDict [])])])).
  reflexivity.
Defined.

(** C4. Round trip.  For every catalog and every key [K] of its [strings]
    mapping, running the importer with the translations input [{K: V}] and
    then the extractor on the catalog it wrote gives a report that does not
    contain [K].  (The catalog is one the extractor reads: its entries are
    readable, and [strings], a [dict], holds no key twice.) *)
Theorem C4_import_then_extract
  (dir : string) (w : world) (d strs : list (string * json))
  (K : string) (V : json) :
  files w !! Importer.XCSTRINGS_PATH dir = Some (Document (JDict d)) →
  files w !! Importer.TRANSLATIONS_PATH dir
  = Some (Document (JDict [(K, V)])) →
  dict_get "strings" d = Some (JDict strs) →
  NoDup strs.*1 →
  Forall (λ item, entry_readable item.2 = true) strs →
  K ∈ strs.*1 →
  ∃ w1 w2 report,
    Importer.main dir w = (Return (), w1) ∧
    Extractor.main dir w1 = (Return (), w2) ∧
    files w2 !! Extractor.OUTPUT_PATH dir = Some (Document (JDict report)) ∧
    K ∉ report.*1.
Proof.
  intros Hdata Htrans Hstrings Hnodup Hshape HK.
  assert (∀ key entry, dict_get key strs = Some entry →
                       entry_readable entry = true) as Hreadable.
  { intros key entry Hget%dict_get_elem_of.
    rewrite Forall_forall in Hshape. apply (Hshape _ Hget). }
  destruct (ImporterFacts.main_dict dir w d [(K, V)] strs Hdata Htrans)
    as (strs' & w' & Hloop & Hkeys & Hmain).
  { simpl. by rewrite Hstrings. }
  { intros key entry _ Hget.
    by apply ImporterFacts.entry_readable_writable, (Hreadable key). }
  apply dict_get_is_Some in HK as [entry HK].
  pose proof (ImporterFacts.loop_entries _ _ _ _ _ _ _ Hloop) as Hentries.
  assert (∃ de, dict_get K strs' = Some (JDict (updated de V))) as [de HK'].
  { specialize (Hentries K). simpl in Hentries.
    rewrite decide_True, HK in Hentries by done.
    destruct Hentries as (entry' & Hupd & Hget').
    apply ImporterFacts.update_entry_Return in Hupd as (de & -> & ->).
    eauto. }
  assert (Forall (λ item, entry_readable item.2 = true) strs') as Hshape'.
  { apply Forall_forall. intros [key entry'] Hin. simpl.
    assert (dict_get key strs' = Some entry') as Hget'
      by (apply dict_get_NoDup; [by rewrite Hkeys|done]).
    destruct (decide (key = K)) as [->|Hne].
    - rewrite HK' in Hget'. injection Hget' as <-.
      apply ImporterFacts.entry_readable_updated.
    - specialize (Hentries key). simpl in Hentries.
      rewrite decide_False in Hentries by done.
      apply (Hreadable key). by rewrite <- Hentries. }
  set (data' := Importer.data_after (JDict d) (JDict strs')) in *.
  destruct (ExtractorFacts.main_report dir
              (World (<[Importer.XCSTRINGS_PATH dir := Document data']>
                        (files w))
                 (console w ++
                    (Importer.warning
                       <$> (unknown_pairs strs.*1 [(K, V)]).*1) ++
                    ["Successfully updated "
                     +:+ pretty (length (known_pairs strs.*1 [(K, V)]))
                     +:+ " translations in "
                     +:+ Importer.XCSTRINGS_PATH dir]))
              data' strs') as (report & Hextract & Hreport).
  { apply lookup_insert_eq. }
  { unfold data', Importer.data_after.
    rewrite (proj2 (dict_mem_true _ _)) by (rewrite Hstrings; eauto).
    simpl. by rewrite dict_get_set_eq. }
  { done. }
  eexists _, _, report. split_and!; [exact Hmain|exact Hextract| |].
  - apply lookup_insert_eq.
  - rewrite Hreport. intros (entry' & Hin & Hmissing).
    apply dict_get_NoDup in Hin; [|by rewrite Hkeys].
    rewrite HK' in Hin. injection Hin as <-.
    by rewrite ImporterFacts.is_missing_updated in Hmissing.
Qed.

Lemma C4_witness :
  dict_get "strings" scenario_fields = Some (JDict scenario_strings) ∧
  NoDup scenario_strings.*1 ∧
  "Hello" ∈ scenario_strings.*1 ∧
  ∃ w1 w2 report,
    Importer.main scenario_dir
      (World
         (<[Importer.TRANSLATIONS_PATH scenario_dir
              := Document (JDict [("Hello", JStr "V")])]>
            (files scenario_world_catalog)) [])
    = (Return (), w1) ∧
    Extractor.main scenario_dir w1 = (Return (), w2) ∧
    files w2 !! Extractor.OUTPUT_PATH scenario_dir
    = Some (Document (JDict report)) ∧
    "Hello" ∉ report.*1.
Proof.
  split; [reflexivity|].
  split; [apply (bool_decide_unpack (NoDup _)); vm_compute; exact I|].
  split; [apply (bool_decide_unpack (_ ∈ _)); vm_compute; exact I|].
  apply (C4_import_then_extract scenario_dir _ scenario_fields
           scenario_strings "Hello" (JStr "V")).
  - reflexivity.
  - reflexivity.
  - reflexivity.
  - apply (bool_decide_unpack (NoDup _)); vm_compute; exact I.
  - repeat constructor.
  - apply (bool_decide_unpack (_ ∈ _)); vm_compute; exact I.
Defined.

(** C5. Frame of the importer.  In the catalog document a run writes back,
    every top-level field other than [strings] is as it was read; no entry
    of [strings] is added or removed; in every entry all fields other than
    [localizations] are unchanged and so are the localization records of
    all locales other than zh-Hans; and the zh-Hans record is either
    unchanged or a record written by the importer, whose state is
    ["translated"]: the importer writes no other state. *)
Theorem C5_importer_frame
  (dir : string) (w w' : world) (data translations : json) :
  files w !! Importer.XCSTRINGS_PATH dir = Some (Document data) →
  files w !! Importer.TRANSLATIONS_PATH dir = Some (Document translations) →
  Importer.main dir w = (Return (), w') →
  ∃ data',
    files w' !! Importer.XCSTRINGS_PATH dir = Some (Document data') ∧
    (∀ f, f ≠ "strings" → field f data' = field f data) ∧
    (∀ key, option_Forall2 entry_frame
              (lookup_path ["strings"; key] data)
              (lookup_path ["strings"; key] data')).
Proof.
  intros Hdata Htrans Hmain.
  apply (ImporterFacts.main_Return _ _ _ _ _ Hdata Htrans) in Hmain
    as (d & trans & strings & [s' c'] & w1 & -> & -> & Hstrings & Hloop & ->).
  eexists. split; [apply lookup_insert_eq|]. cbn [fst].
  assert (∀ o : option json, option_Forall2 entry_frame o o) as Hrefl.
  { intros [entry|]; constructor. apply ImporterFacts.entry_frame_refl. }
  destruct (is_dict strings) eqn:Hdict.
  - destruct strings as [| | | | | |strs]; try done.
    pose proof (ImporterFacts.loop_dict _ _ _ _ _ _ Hloop)
      as (strs' & Hs & Hkeys & _). simpl in Hs. subst s'.
    destruct (ImporterFacts.data_after_strings d strs strs') as [Hother Hnew];
      [done..|].
    split; [done|]. intros key.
    pose proof (ImporterFacts.loop_frame _ _ _ _ _ _ _ Hloop key) as Hframe.
    simpl in Hnew |- *.
    destruct (dict_get "strings" d) as [strings|] eqn:Hget.
    + simpl in Hstrings. subst strings. simpl.
      rewrite (proj2 (dict_mem_true _ _)) in Hnew |- * by (rewrite Hget; eauto).
      simpl in *. rewrite dict_get_set_eq. simpl.
      destruct Hframe; simpl; by constructor.
    + rewrite (proj2 (dict_mem_false _ _)) by done. simpl. rewrite Hget.
      constructor.
  - apply ImporterFacts.loop_not_dict in Hloop as ([= -> ->] & _); [|done].
    rewrite Hstrings, ImporterFacts.data_after_same. by split.
Qed.

Lemma C5_witness :
  (Importer.main scenario_dir scenario_world).1 = Return () ∧
  ∃ data',
    files (Importer.main scenario_dir scenario_world).2
    !! Importer.XCSTRINGS_PATH scenario_dir = Some (Document data') ∧
    field "sourceLanguage" data' = Some (JStr "en") ∧
    option_Forall2 entry_frame
      (lookup_path ["strings"; "Open"] scenario_catalog)
      (lookup_path ["strings"; "Open"] data').
Proof.
  split; [reflexivity|].
  destruct (C5_importer_frame scenario_dir scenario_world
              (Importer.main scenario_dir scenario_world).2
              scenario_catalog (JDict scenario_translations))
    as (data' & Hfile & Hother & Hframe).
  - reflexivity.
  - reflexivity.
  - reflexivity.
  - exists data'. split_and!.
    + exact Hfile.
    + by rewrite Hother.
    + apply Hframe.
Defined.

(** C6. For every pair of the translations input whose key is not in the
    catalog's [strings] mapping, the importer prints a warning naming the
    key, creates no entry (the keys of [strings] are as before), does not
    count the pair, and goes on with the remaining pairs: the run returns,
    every pair with a known key is counted and applied. *)
Theorem C6_unknown_keys_warned
  (dir : string) (w : world) (d strs trans : list (string * json)) :
  files w !! Importer.XCSTRINGS_PATH dir = Some (Document (JDict d)) →
  files w !! Importer.TRANSLATIONS_PATH dir = Some (Document (JDict trans)) →
  py_get (JDict d) "strings" (JDict []) = Return (JDict strs) →
  (∀ key entry, key ∈ trans.*1 → dict_get key strs = Some entry →
                entry_writable entry = true) →
  ∃ data' strs',
    Importer.main dir w =
      (Return (),
       World (<[Importer.XCSTRINGS_PATH dir := Document data']> (files w))
         (console w ++
            (Importer.warning <$> (unknown_pairs strs.*1 trans).*1) ++
            ["Successfully updated "
             +:+ pretty (length (known_pairs strs.*1 trans))
             +:+ " translations in " +:+ Importer.XCSTRINGS_PATH dir])) ∧
    py_get data' "strings" (JDict []) = Return (JDict strs') ∧
    strs'.*1 = strs.*1 ∧
    (∀ key translation,
       (key, translation) ∈ trans → dict_get key strs = None →
       Importer.warning key
       ∈ (Importer.warning <$> (unknown_pairs strs.*1 trans).*1) ∧
       ((key, translation) ∉ known_pairs strs.*1 trans) ∧
       dict_get key strs' = None) ∧
    (∀ key, key ∈ (known_pairs strs.*1 trans).*1 →
       ∃ translation,
         (key, translation) ∈ trans ∧
         lookup_path [key; "localizations"; "zh-Hans"] (JDict strs')
         = Some (Importer.zh_hans_record translation)).
Proof.
  intros Hdata Htrans Hstrings Hwritable.
  destruct (ImporterFacts.main_dict dir w d trans strs Hdata Htrans Hstrings
              Hwritable) as (strs' & w1 & Hloop & Hkeys & Hmain).
  exists (Importer.data_after (JDict d) (JDict strs')), strs'.
  split_and!; [done| |done| |].
  - simpl in *. destruct (dict_get "strings" d) as [strings|] eqn:Hget.
    + rewrite (proj2 (dict_mem_true _ _)) by (rewrite Hget; eauto).
      simpl. by rewrite dict_get_set_eq.
    + rewrite (proj2 (dict_mem_false _ _)) by done. simpl. rewrite Hget.
      simpl in *. injection Hstrings as <-.
      by destruct strs'.
  - intros key translation Hin Hnone.
    apply dict_get_None in Hnone as Hnotin. split_and!.
    + apply list_elem_of_fmap. exists key. split; [done|].
      apply list_elem_of_fmap. exists (key, translation). split; [done|].
      by apply list_elem_of_filter.
    + by intros [? _]%list_elem_of_filter.
    + apply dict_get_None. by rewrite Hkeys.
  - intros key ([key' t0] & -> & [Hknown Hin]%list_elem_of_filter)%list_elem_of_fmap.
    simpl in *.
    pose proof (ImporterFacts.loop_entries _ _ _ _ _ _ _ Hloop key') as Hkey.
    assert (is_Some (dict_get key' (reverse trans))) as [t Ht].
    { apply dict_get_is_Some. rewrite fmap_reverse, elem_of_reverse.
      apply list_elem_of_fmap. by exists (key', t0). }
    apply dict_get_is_Some in Hknown as [entry Hentry].
    rewrite Ht, Hentry in Hkey. destruct Hkey as (entry' & Hupd & Hget').
    exists t. split.
    + apply elem_of_reverse. by apply dict_get_elem_of.
    + apply ImporterFacts.update_entry_Return in Hupd as (de & -> & ->).
      simpl. rewrite Hget'. simpl.
      rewrite ImporterFacts.updated_localizations. simpl.
      by rewrite dict_get_set_eq.
Qed.

Lemma C6_witness :
  py_get scenario_catalog "strings" (JDict [])
  = Return (JDict scenario_strings) ∧
  dict_get "Quit" scenario_strings = None ∧
  ∃ (data' : json) (strs' : list (string * json)),
    Importer.main scenario_dir scenario_world =
      (Return (),
       World
         (<[Importer.XCSTRINGS_PATH scenario_dir := Document data']>
            (files scenario_world))
         ["Warning: Key 'Quit' not found in xcstrings file.";
          "Successfully updated 2 translations in /repo/scripts/../nolon/Localizable.xcstrings"]) ∧
    strs'.*1 = ["Hello"; "Bye"; "Open"] ∧
    dict_get "Quit" strs' = None.
Proof.
  split; [reflexivity|]. split; [reflexivity|].
  destruct (C6_unknown_keys_warned scenario_dir scenario_world
              scenario_fields scenario_strings scenario_translations)
    as (data' & strs' & Hmain & _ & Hkeys & Hunknown & _).
  - reflexivity.
  - reflexivity.
  - reflexivity.
  - intros key entry _ Hget.
    assert (Forall (λ item, entry_writable item.2 = true) scenario_strings)
      as Hall by (repeat constructor).
    rewrite Forall_forall in Hall.
    apply (Hall (key, entry)). by apply dict_get_elem_of.
  - exists data', strs'. split_and!.
    + exact Hmain.
    + exact Hkeys.
    + apply (Hunknown "Quit" (JStr "tuichu")); [|reflexivity].
      right; right; left.
Defined.

(** C7. Idempotence of the import.  Whatever the catalog and the
    translations input, when a run of the importer returns, a second run on
    the files it leaves returns too and leaves every file, the catalog
    document among them, as the first run left it.  (The translations input,
    a [dict], holds no key twice.) *)
Theorem C7_import_idempotent (dir : string) (w w1 : world) :
  (∀ trans,
     files w !! Importer.TRANSLATIONS_PATH dir
     = Some (Document (JDict trans)) → NoDup trans.*1) →
  Importer.main dir w = (Return (), w1) →
  ∃ w2, Importer.main dir w1 = (Return (), w2) ∧ files w2 = files w1.
Proof.
  intros Hnodup Hmain.
  destruct (files w !! Importer.XCSTRINGS_PATH dir) as [fx|] eqn:Hfx.
  2:{ rewrite ImporterFacts.main_missing_catalog in Hmain by done.
      injection Hmain as <-.
      rewrite ImporterFacts.main_missing_catalog by done. eauto. }
  destruct (files w !! Importer.TRANSLATIONS_PATH dir) as [ft|] eqn:Hft.
  2:{ rewrite ImporterFacts.main_missing_translations in Hmain by eauto.
      injection Hmain as <-.
      rewrite ImporterFacts.main_missing_translations by eauto. eauto. }
  destruct fx as [raw|data].
  { rewrite (surjective_pairing (Importer.main dir w)) in Hmain.
    rewrite (ImporterFacts.main_unreadable dir w _ _ Hfx Hft) in Hmain
      by eauto. done. }
  destruct ft as [raw|translations].
  { rewrite (surjective_pairing (Importer.main dir w)) in Hmain.
    rewrite (ImporterFacts.main_unreadable dir w _ _ Hfx Hft) in Hmain
      by eauto. done. }
  pose proof (ImporterFacts.main_Return _ _ _ _ _ Hfx Hft Hmain)
    as (d & trans & strings & [s' c'] & w' & Hd & Ht & Hstrings & Hloop & Hw1).
  subst data translations w1.
  specialize (Hnodup trans eq_refl). cbn [fst snd].
  destruct (ImporterFacts.data_after_dict d s') as [d1 Hd1].
  assert (files w' = files w) as Hfiles.
  { destruct (is_dict strings) eqn:Hdict.
    - destruct strings; try done.
      by apply ImporterFacts.loop_dict in Hloop as (? & _ & _ & _ & ? & _).
    - by apply ImporterFacts.loop_not_dict in Hloop as (_ & ? & _). }
  apply (ImporterFacts.main_again _ _ d1 trans).
  - cbn [files]. rewrite <- Hd1. apply lookup_insert_eq.
  - cbn [files]. rewrite lookup_insert_ne by apply ImporterFacts.paths_distinct.
    by rewrite Hfiles.
  - destruct (is_dict strings) eqn:Hdict.
    + destruct strings as [| | | | | |strs]; try done.
      pose proof (ImporterFacts.loop_dict _ _ _ _ _ _ Hloop)
        as (strs' & Hs & Hkeys & _). simpl in Hs. subst s'.
      destruct (ImporterFacts.data_after_strings d strs strs') as [_ Hnew];
        [done..|].
      rewrite Hd1 in Hnew. simpl in Hnew. rewrite Hnew.
      by apply (ImporterFacts.loop_dict_again trans strs 0 w strs' c' w').
    + pose proof Hloop as ([= -> ->] & _)%ImporterFacts.loop_not_dict;
        [|done].
      rewrite Hstrings, ImporterFacts.data_after_same in Hd1.
      injection Hd1 as <-. rewrite <- Hstrings.
      by apply (ImporterFacts.loop_not_dict_again trans strings 0 w
                  (strings, 0) w').
Qed.

Lemma C7_witness :
  NoDup scenario_translations.*1 ∧
  (Importer.main scenario_dir scenario_world).1 = Return () ∧
  ∃ w2,
    Importer.main scenario_dir (Importer.main scenario_dir scenario_world).2
    = (Return (), w2) ∧
    files w2 = files (Importer.main scenario_dir scenario_world).2.
Proof.
  split; [apply (bool_decide_unpack (NoDup _)); vm_compute; exact I|].
  split; [reflexivity|].
  apply (C7_import_idempotent scenario_dir scenario_world).
  - intros trans [= <-].
    apply (bool_decide_unpack (NoDup _)); vm_compute; exact I.
  - reflexivity.
Defined.

(** C8. When a required input file is absent (the catalog for either script,
    the translations file for the importer) the script prints an error line
    naming the path and returns: no exception, and no file is written or
    changed. *)
Theorem C8_missing_input_file (dir : string) (w : world) :
  (files w !! Extractor.XCSTRINGS_PATH dir = None →
   Extractor.main dir w =
     (Return (),
      World (files w)
        (console w ++
           ["Error: " +:+ Extractor.XCSTRINGS_PATH dir +:+ " not found."])))
  ∧
  (files w !! Importer.XCSTRINGS_PATH dir = None →
   Importer.main dir w =
     (Return (),
      World (files w)
        (console w ++
           ["Error: " +:+ Importer.XCSTRINGS_PATH dir +:+ " not found."])))
  ∧
  (is_Some (files w !! Importer.XCSTRINGS_PATH dir) →
   files w !! Importer.TRANSLATIONS_PATH dir = None →
   Importer.main dir w =
     (Return (),
      World (files w)
        (console w ++
           ["Error: " +:+ Importer.TRANSLATIONS_PATH dir +:+ " not found."]))).
Proof.
  split_and!.
  - apply ExtractorFacts.main_missing_file.
  - apply ImporterFacts.main_missing_catalog.
  - apply ImporterFacts.main_missing_translations.
Qed.

Lemma C8_witness :
  Extractor.main scenario_dir (World ∅ []) =
    (Return (),
     World ∅ ["Error: /repo/scripts/../nolon/Localizable.xcstrings not found."])
  ∧
  Importer.main scenario_dir (World ∅ []) =
    (Return (),
     World ∅ ["Error: /repo/scripts/../nolon/Localizable.xcstrings not found."])
  ∧
  Importer.main scenario_dir scenario_world_catalog =
    (Return (),
     World (files scenario_world_catalog)
       ["Error: /repo/scripts/translated_items.json not found."]).
Proof.
  split_and!.
  - apply (proj1 (C8_missing_input_file scenario_dir (World ∅ []))).
    reflexivity.
  - apply (proj1 (proj2 (C8_missing_input_file scenario_dir (World ∅ [])))).
    reflexivity.
  - apply (proj2 (proj2 (C8_missing_input_file scenario_dir
                           scenario_world_catalog))).
    + by eexists.
    + reflexivity.
Defined.

(** C9. When the importer updates a key whose entry already has a zh-Hans
    localization record, the whole record is replaced: after the run the
    record is the one the importer builds, so every field it had other than
    [stringUnit] (substitutions, variations, ...) is gone, while the records
    of the other locales are as before. *)
Theorem C9_zh_hans_record_replaced
  (dir : string) (w w' : world) (data : json) (trans : list (string * json))
  (key : string) (translation old : json) :
  files w !! Importer.XCSTRINGS_PATH dir = Some (Document data) →
  files w !! Importer.TRANSLATIONS_PATH dir = Some (Document (JDict trans)) →
  NoDup trans.*1 →
  (key, translation) ∈ trans →
  lookup_path ["strings"; key; "localizations"; "zh-Hans"] data = Some old →
  Importer.main dir w = (Return (), w') →
  ∃ data',
    files w' !! Importer.XCSTRINGS_PATH dir = Some (Document data') ∧
    lookup_path ["strings"; key; "localizations"; "zh-Hans"] data'
    = Some (JDict [("stringUnit",
                    JDict [("state", JStr "translated");
                           ("value", translation)])]) ∧
    (∀ f, f ≠ "stringUnit" →
       lookup_path ["strings"; key; "localizations"; "zh-Hans"; f] data'
       = None) ∧
    (∀ locale, locale ≠ "zh-Hans" →
       lookup_path ["strings"; key; "localizations"; locale] data'
       = lookup_path ["strings"; key; "localizations"; locale] data).
Proof.
  intros Hdata Htrans Hnodup Hin Hold Hmain.
  apply (ImporterFacts.main_Return _ _ _ _ _ Hdata Htrans) in Hmain
    as (d & trans' & strings & [s' c'] & w1 & -> & [= <-] & Hstrings
        & Hloop & ->).
  simpl in Hold.
  destruct (dict_get "strings" d) as [[| | | | | |strs]|] eqn:Hget;
    try done; simpl in Hold, Hstrings; subst strings.
  destruct (dict_get key strs) as [[| | | | | |de]|] eqn:Hentry;
    try done; simpl in Hold.
  destruct (dict_get "localizations" de) as [[| | | | | |l]|] eqn:Hlocs;
    try done; simpl in Hold.
  pose proof (ImporterFacts.loop_dict _ _ _ _ _ _ Hloop)
    as (strs' & Hs & _). simpl in Hs. subst s'.
  pose proof (ImporterFacts.loop_entries _ _ _ _ _ _ _ Hloop key) as Hkey.
  rewrite (ImporterFacts.dict_get_reverse_NoDup key translation trans),
    Hentry in Hkey by done.
  destruct Hkey as (entry' & Hupd & Hget').
  apply ImporterFacts.update_entry_Return in Hupd as (? & [= <-] & ->).
  eexists. split; [apply lookup_insert_eq|].
  cbn [fst]. unfold Importer.data_after.
  rewrite (proj2 (dict_mem_true _ _)) by (rewrite Hget; eauto).
  simpl. rewrite dict_get_set_eq. simpl. rewrite Hget'. simpl.
  rewrite ImporterFacts.updated_localizations, Hlocs. simpl.
  split_and!.
  - by rewrite dict_get_set_eq.
  - intros f Hf. rewrite dict_get_set_eq. simpl. by rewrite decide_False.
  - intros locale Hlocale. rewrite dict_get_set_ne by done.
    rewrite Hget. simpl. rewrite Hentry. simpl. by rewrite Hlocs.
Qed.

Lemma C9_witness :
  lookup_path ["strings"; "Open"; "localizations"; "zh-Hans"] scenario_catalog
  = Some (JDict
            [("stringUnit",
              JDict [("state", JStr "needs_review"); ("value", JStr "kai")]);
             ("substitutions", JDict [])]) ∧
  ∃ data',
    files (Importer.main scenario_dir scenario_world).2
    !! Importer.XCSTRINGS_PATH scenario_dir = Some (Document data') ∧
    lookup_path ["strings"; "Open"; "localizations"; "zh-Hans"] data'
    = Some (JDict [("stringUnit",
                    JDict [("state", JStr "translated");
                           ("value", JStr "dakai")])]) ∧
    lookup_path
      ["strings"; "Open"; "localizations"; "zh-Hans"; "substitutions"] data'
    = None ∧
    lookup_path ["strings"; "Open"; "localizations"; "fr"] data'
    = lookup_path ["strings"; "Open"; "localizations"; "fr"] scenario_catalog.
Proof.
  split; [reflexivity|].
  destruct (C9_zh_hans_record_replaced scenario_dir scenario_world
              (Importer.main scenario_dir scenario_world).2
              scenario_catalog scenario_translations "Open" (JStr "dakai")
              (JDict
                 [("stringUnit",
                   JDict [("state", JStr "needs_review");
                          ("value", JStr "kai")]);
                  ("substitutions", JDict [])]))
    as (data' & Hfile & Hrecord & Hfields & Hlocales).
  - reflexivity.
  - reflexivity.
  - apply (bool_decide_unpack (NoDup _)); vm_compute; exact I.
  - right; left.
  - reflexivity.
  - reflexivity.
  - exists data'. split_and!.
    + exact Hfile.
    + exact Hrecord.
    + by apply Hfields.
    + by apply Hlocales.
Defined.

(** C10. When the catalog document has no top-level ["strings"], the
    extractor takes the mapping to be empty, writes the empty report and
    prints a count of 0 without an exception; the importer finds no key,
    prints a warning for every pair of the input and updates nothing. *)
Theorem C10_catalog_without_strings
  (dir : string) (w : world) (d : list (string * json)) :
  dict_get "strings" d = None →
  (files w !! Extractor.XCSTRINGS_PATH dir = Some (Document (JDict d)) →
   Extractor.main dir w =
     (Return (),
      World (<[Extractor.OUTPUT_PATH dir := Document (JDict [])]> (files w))
        (console w ++
           ["Found 0 missing translations.";
            "Exported to " +:+ Extractor.OUTPUT_PATH dir])))
  ∧
  (∀ trans,
     files w !! Importer.XCSTRINGS_PATH dir = Some (Document (JDict d)) →
     files w !! Importer.TRANSLATIONS_PATH dir
     = Some (Document (JDict trans)) →
     Importer.main dir w =
       (Return (),
        World (files w)
          (console w ++ (Importer.warning <$> trans.*1) ++
             ["Successfully updated 0 translations in "
              +:+ Importer.XCSTRINGS_PATH dir]))).
Proof.
  intros Hnone. split.
  - intros Hfile. rewrite (ExtractorFacts.main_reads_catalog _ _ _ Hfile).
    unfold Extractor.missing_translations. simpl. by rewrite Hnone.
  - intros trans Hdata Htrans.
    rewrite (ImporterFacts.main_reads_inputs _ _ _ _ Hdata Htrans). simpl.
    rewrite Hnone. simpl.
    rewrite ImporterFacts.loop_unknown by done. simpl.
    rewrite (proj2 (dict_mem_false _ _)) by done.
    by rewrite insert_id, <- app_assoc.
Qed.

Lemma C10_witness :
  dict_get "strings" scenario_no_strings = None ∧
  Extractor.main scenario_dir scenario_world_no_strings =
    (Return (),
     World
       (<[Extractor.OUTPUT_PATH scenario_dir := Document (JDict [])]>
          (files scenario_world_no_strings))
       ["Found 0 missing translations.";
        "Exported to /repo/scripts/missing_translations.json"]) ∧
  Importer.main scenario_dir scenario_world_no_strings =
    (Return (),
     World (files scenario_world_no_strings)
       ["Warning: Key 'Hello' not found in xcstrings file.";
        "Warning: Key 'Open' not found in xcstrings file.";
        "Warning: Key 'Quit' not found in xcstrings file.";
        "Successfully updated 0 translations in /repo/scripts/../nolon/Localizable.xcstrings"]).
Proof.
  split; [reflexivity|].
  destruct (C10_catalog_without_strings scenario_dir
              scenario_world_no_strings scenario_no_strings eq_refl)
    as [Hextract Himport].
  split.
  - apply Hextract. reflexivity.
  - apply (Himport scenario_translations); reflexivity.
Defined.

(** * Further properties of the two scripts *)

(** ** The extractor *)

Module ExtractorMore.
Import Extractor ExtractorFacts.

Lemma dict_set_fresh {V : Type} (k : string) (v : V) (d : list (string * V)) :
  k ∉ d.*1 → dict_set k v d = (d ++ [(k, v)])%list.
Proof.
  induction d as [|[k' v'] d IH]; csimpl; [done|].
  intros [Hne Hnotin]%not_elem_of_cons.
  by rewrite decide_False, IH.
Qed.

(** The loop body on an entry that is read without an exception. *)
Lemma loop_body_eq acc key value b :
  is_missing value = Return b →
  loop_body acc (key, value) =
    Return (if b then dict_set key (report_entry key value) acc else acc).
Proof.
  intros Hb. unfold loop_body. rewrite Hb. simpl. destruct b; [|done].
  unfold is_missing in Hb. by destruct value.
Qed.

(** The loop on entries whose keys are new and distinct appends one item for
    each entry found missing. *)
Lemma loop_report_exact items : ∀ acc,
  NoDup (acc.*1 ++ items.*1)%list →
  Forall (λ item, entry_readable item.2 = true) items →
  for_each loop_body items acc = Return (acc ++ report_of items)%list.
Proof.
  unfold report_of.
  induction items as [|[key value] items IH]; intros acc Hnodup Hshape.
  - simpl. by rewrite app_nil_r.
  - apply Forall_cons in Hshape as [Hvalue Hshape]. simpl in Hvalue.
    apply is_missing_readable in Hvalue as [b Hb].
    rewrite for_each_cons, (loop_body_eq _ _ _ _ Hb). simpl.
    csimpl in Hnodup.
    destruct b.
    + rewrite filter_cons_True by (unfold found_missing; simpl; by rewrite Hb).
      rewrite dict_set_fresh.
      2:{ apply NoDup_app in Hnodup as (_ & Hdisj & _).
          intros Hin. apply (Hdisj _ Hin). left. }
      rewrite IH; [| |done].
      * csimpl. by rewrite <- app_assoc.
      * rewrite fmap_app, <- app_assoc. exact Hnodup.
    + rewrite filter_cons_False
        by (unfold found_missing; simpl; rewrite Hb; simpl; tauto).
      apply IH; [|done].
      apply NoDup_app in Hnodup as (Hacc & Hdisj & [_ Hitems]%NoDup_cons).
      apply NoDup_app. split_and!; [done| |done].
      intros k Hk Hin. apply (Hdisj k Hk). by right.
Qed.

(** [main] when the catalog file holds no JSON document. *)
Lemma main_unparsable dir w raw :
  files w !! XCSTRINGS_PATH dir = Some (Text raw) →
  main dir w = (Raise JSONDecodeError, w).
Proof.
  intros Hfile. unfold main, path_exists, load_json, lift, print, dump_json.
  unfold mbind, M_bind. simpl. rewrite !Hfile.
  rewrite bool_decide_true by eauto. simpl. by rewrite Hfile.
Qed.

Lemma paths_differ dir : XCSTRINGS_PATH dir ≠ OUTPUT_PATH dir.
Proof. by intros H%ImporterFacts.path_join_inj. Qed.

(** An entry that is not readable makes [is_missing] raise
    [AttributeError]. *)
Lemma is_missing_unreadable entry :
  entry_readable entry = false → is_missing entry = Raise AttributeError.
Proof.
  intros Hshape. destruct (is_missing entry) as [b|e] eqn:Hrun.
  - assert (entry_readable entry = true) by (apply is_missing_readable; eauto).
    congruence.
  - revert Hrun. unfold is_missing, py_get.
    repeat (case_match; simpl; try done); congruence.
Qed.

Lemma loop_unreadable items : ∀ acc,
  Exists (λ item, entry_readable item.2 = false) items →
  for_each loop_body items acc = Raise AttributeError.
Proof.
  induction items as [|[key value] items IH]; intros acc Hex.
  - by apply Exists_nil in Hex.
  - rewrite for_each_cons.
    destruct (entry_readable value) eqn:Hvalue.
    + destruct (loop_body_total acc key value Hvalue) as [acc' ->]. simpl.
      apply IH. apply Exists_cons in Hex as [Hhead|Htail]; [|done].
      simpl in Hhead. congruence.
    + unfold loop_body. by rewrite (is_missing_unreadable _ Hvalue).
Qed.

End ExtractorMore.

(** X1. On a catalog the extractor can read, whose [strings] holds no key
    twice, the report written is, in the order of the catalog, one item
    [{source: key, comment: c}] per entry found missing, [c] being the
    entry's [comment] or the empty string when it has none; the count
    printed is the number of these items. *)
Theorem X1_report_in_catalog_order
  (dir : string) (w : world) (data : json) (strs : list (string * json)) :
  files w !! Extractor.XCSTRINGS_PATH dir = Some (Document data) →
  py_get data "strings" (JDict []) = Return (JDict strs) →
  NoDup strs.*1 →
  Forall (λ item, entry_readable item.2 = true) strs →
  Extractor.main dir w =
    (Return (),
     World
       (<[Extractor.OUTPUT_PATH dir := Document (JDict (report_of strs))]>
          (files w))
       (console w ++
          ["Found "
           +:+ pretty (length (filter (λ item, found_missing item.2) strs))
           +:+ " missing translations.";
           "Exported to " +:+ Extractor.OUTPUT_PATH dir])).
Proof.
  intros Hfile Hstrings Hnodup Hshape.
  rewrite (ExtractorFacts.main_reads_catalog _ _ _ Hfile).
  unfold Extractor.missing_translations. rewrite Hstrings. simpl.
  rewrite (ExtractorMore.loop_report_exact strs []) by done.
  cbn [app].
  assert (length (report_of strs)
          = length (filter (λ item, found_missing item.2) strs)) as ->
    by (unfold report_of; apply length_fmap).
  done.
Qed.

Lemma X1_witness :
  NoDup scenario_strings.*1 ∧
  Extractor.main scenario_dir scenario_world_catalog =
    (Return (),
     World
       (<[Extractor.OUTPUT_PATH scenario_dir :=
            Document
              (JDict
                 [("Hello",
                   JDict [("source", JStr "Hello");
                          ("comment", JStr "greeting")]);
                  ("Open",
                   JDict [("source", JStr "Open");
                          ("comment", JStr "menu item")])])]>
          (files scenario_world_catalog))
       ["Found 2 missing translations.";
        "Exported to /repo/scripts/missing_translations.json"]).
Proof.
  split; [apply (bool_decide_unpack (NoDup _)); vm_compute; exact I|].
  apply (X1_report_in_catalog_order scenario_dir scenario_world_catalog
           scenario_catalog scenario_strings).
  - reflexivity.
  - reflexivity.
  - apply (bool_decide_unpack (NoDup _)); vm_compute; exact I.
  - repeat constructor.
Defined.

(** X2. Whatever the outcome of a run, the extractor leaves every path other
    than its output path as it was; the catalog, which is at another path,
    is never changed. *)
Theorem X2_extractor_writes_only_output (dir : string) (w : world) :
  (∀ path, path ≠ Extractor.OUTPUT_PATH dir →
     files (Extractor.main dir w).2 !! path = files w !! path) ∧
  files (Extractor.main dir w).2 !! Extractor.XCSTRINGS_PATH dir
  = files w !! Extractor.XCSTRINGS_PATH dir.
Proof.
  assert (∀ path, path ≠ Extractor.OUTPUT_PATH dir →
            files (Extractor.main dir w).2 !! path = files w !! path) as H.
  { intros path Hpath.
    destruct (files w !! Extractor.XCSTRINGS_PATH dir) as [[raw|data]|]
      eqn:Hfile.
    - by rewrite (ExtractorMore.main_unparsable _ _ _ Hfile).
    - rewrite (ExtractorFacts.main_reads_catalog _ _ _ Hfile).
      destruct (Extractor.missing_translations data); [|done].
      simpl. by rewrite lookup_insert_ne.
    - by rewrite (ExtractorFacts.main_missing_file _ _ Hfile). }
  split; [done|]. apply H, ExtractorMore.paths_differ.
Qed.



(** X4. When some entry of [strings] is not readable (it is no object, or a
    sub-field on the way to the state is present with a value that is no
    object), the extractor raises [AttributeError]; nothing is printed and no
    report is written. *)
Theorem X4_unreadable_entry_raises
  (dir : string) (w : world) (data : json) (strs : list (string * json)) :
  files w !! Extractor.XCSTRINGS_PATH dir = Some (Document data) →
  py_get data "strings" (JDict []) = Return (JDict strs) →
  Exists (λ item, entry_readable item.2 = false) strs →
  Extractor.main dir w = (Raise AttributeError, w).
Proof.
  intros Hfile Hstrings Hex.
  rewrite (ExtractorFacts.main_reads_catalog _ _ _ Hfile).
  unfold Extractor.missing_translations. rewrite Hstrings. simpl.
  by rewrite ExtractorMore.loop_unreadable.
Qed.

Lemma X4_witness :
  Exists (λ item, entry_readable item.2 = false)
    [("Hello", JDict []); ("Bye", JDict [("localizations", JNull)])] ∧
  Extractor.main scenario_dir
    (World
       {[ Extractor.XCSTRINGS_PATH scenario_dir :=
            Document
              (JDict
                 [("strings",
                   JDict [("Hello", JDict []);
                          ("Bye", JDict [("localizations", JNull)])])]) ]}
       [])
  = (Raise AttributeError,
     World
       {[ Extractor.XCSTRINGS_PATH scenario_dir :=
            Document
              (JDict
                 [("strings",
                   JDict [("Hello", JDict []);
                          ("Bye", JDict [("localizations", JNull)])])]) ]}
       []).
Proof.
  split; [right; left; reflexivity|].
  apply (X4_unreadable_entry_raises scenario_dir _
           (JDict
              [("strings",
                JDict [("Hello", JDict []);
                       ("Bye", JDict [("localizations", JNull)])])])
           [("Hello", JDict []); ("Bye", JDict [("localizations", JNull)])]).
  - reflexivity.
  - reflexivity.
  - right; left; reflexivity.
Defined.

(** X5. The zh-Hans value is tested as a condition before it is read as an
    object: a value that is false as a condition ([null], [false], [0],
    [0.0], [""], [[]] or [{}]) makes the entry count as missing whatever its
    type, and a value that is true as a condition but no object makes the
    lookup raise [AttributeError]. *)
Theorem X5_zh_hans_truth_value
  (d localizations : list (string * json)) (zh_hans : json) :
  dict_get "localizations" d = Some (JDict localizations) →
  dict_get "zh-Hans" localizations = Some zh_hans →
  (truthy zh_hans = false → Extractor.is_missing (JDict d) = Return true) ∧
  (truthy zh_hans = true → is_dict zh_hans = false →
   Extractor.is_missing (JDict d) = Raise AttributeError).
Proof.
  intros Hlocs Hzh. unfold Extractor.is_missing. simpl.
  rewrite Hlocs. simpl. rewrite Hzh. simpl. split.
  - by intros ->.
  - intros -> Hdict. by destruct zh_hans.
Qed.

Lemma X5_witness :
  Extractor.is_missing
    (JDict [("localizations", JDict [("zh-Hans", JInt 0)])])
  = Return true ∧
  Extractor.is_missing
    (JDict [("localizations", JDict [("zh-Hans", JStr "nihao")])])
  = Raise AttributeError.
Proof.
  split.
  - apply (X5_zh_hans_truth_value
             [("localizations", JDict [("zh-Hans", JInt 0)])]
             [("zh-Hans", JInt 0)] (JInt 0)); reflexivity.
  - apply (X5_zh_hans_truth_value
             [("localizations", JDict [("zh-Hans", JStr "nihao")])]
             [("zh-Hans", JStr "nihao")] (JStr "nihao")); reflexivity.
Defined.

(** X6. The report depends on the catalog only: a second run of the
    extractor, on the files the first run left (its own report among them),
    returns and leaves the same files. *)
Theorem X6_extractor_rerun (dir : string) (w w1 : world) :
  Extractor.main dir w = (Return (), w1) →
  ∃ w2, Extractor.main dir w1 = (Return (), w2) ∧ files w2 = files w1.
Proof.
  destruct (files w !! Extractor.XCSTRINGS_PATH dir) as [[raw|data]|]
    eqn:Hfile.
  - by rewrite (ExtractorMore.main_unparsable _ _ _ Hfile).
  - rewrite (ExtractorFacts.main_reads_catalog _ _ _ Hfile).
    destruct (Extractor.missing_translations data) as [report|] eqn:Hreport;
      [|done].
    intros [= <-].
    rewrite (ExtractorFacts.main_reads_catalog _ _ data).
    + rewrite Hreport. eexists. split; [done|]. simpl.
      apply insert_insert_eq.
    + simpl. rewrite lookup_insert_ne; [done|].
      intros Heq. by apply (ExtractorMore.paths_differ dir).
  - rewrite (ExtractorFacts.main_missing_file _ _ Hfile). intros [= <-].
    rewrite ExtractorFacts.main_missing_file by done. eauto.
Qed.

Lemma X6_witness :
  (Extractor.main scenario_dir scenario_world_catalog).1 = Return () ∧
  ∃ w2,
    Extractor.main scenario_dir
      (Extractor.main scenario_dir scenario_world_catalog).2
    = (Return (), w2) ∧
    files w2 = files (Extractor.main scenario_dir scenario_world_catalog).2.
Proof.
  split; [reflexivity|].
  apply (X6_extractor_rerun scenario_dir scenario_world_catalog).
  reflexivity.
Defined.

(** ** The importer *)

Module ImporterMore.
Import Importer ImporterFacts.

(** The loop body touches no file, whatever its outcome. *)
Lemma loop_body_files st item w :
  files (loop_body st item w).2 = files w.
Proof.
  destruct st as [strings c], item as [key t].
  destruct (is_dict strings) eqn:Hdict.
  - destruct strings; try done. rewrite loop_body_dict.
    destruct (dict_get key d) as [entry|]; [|done].
    by destruct (update_entry entry t).
  - rewrite loop_body_not_dict by done.
    by destruct (py_contains key strings) as [[]|].
Qed.

Lemma loop_files trans : ∀ st w,
  files (for_each loop_body trans st w).2 = files w.
Proof.
  induction trans as [|item trans IH]; intros st w; [done|].
  rewrite for_each_M_cons.
  pose proof (loop_body_files st item w) as Hbody.
  destruct (loop_body st item w) as [[st'|e] w1]; simpl in Hbody.
  - by rewrite IH.
  - done.
Qed.

(** [main], whatever its outcome, on a world whose two input files exist. *)
Lemma main_files_documents dir w path data translations :
  files w !! XCSTRINGS_PATH dir = Some (Document data) →
  files w !! TRANSLATIONS_PATH dir = Some (Document translations) →
  (path ≠ XCSTRINGS_PATH dir ∨ ∃ e, (main dir w).1 = Raise e) →
  files (main dir w).2 !! path = files w !! path.
Proof.
  intros Hdata Htrans Hcase.
  rewrite (main_reads_inputs _ _ _ _ Hdata Htrans) in Hcase |- *.
  destruct (py_get data "strings" (JDict [])) as [strings|]; [|done].
  destruct (py_items translations) as [items|]; [|done].
  pose proof (loop_files items (strings, 0) w) as Hloop.
  destruct (for_each loop_body items (strings, 0) w) as [[st|e] w1];
    simpl in *.
  - destruct Hcase as [Hpath|[e [=]]].
    by rewrite lookup_insert_ne, Hloop.
  - by rewrite Hloop.
Qed.

(** [main] when an input file holds no JSON document: nothing has happened
    yet when the exception is raised. *)
Lemma main_unreadable_world dir w fx ft :
  files w !! XCSTRINGS_PATH dir = Some fx →
  files w !! TRANSLATIONS_PATH dir = Some ft →
  (∃ raw, fx = Text raw) ∨ (∃ raw, ft = Text raw) →
  main dir w = (Raise JSONDecodeError, w).
Proof.
  intros Hfx Hft Htext.
  unfold main, path_exists, load_json, lift, print, dump_json.
  unfold mbind at 1 2 3 4 5 6 7 8. unfold M_bind. simpl.
  rewrite !Hfx. rewrite bool_decide_true by eauto. simpl.
  rewrite !Hft. rewrite bool_decide_true by eauto. simpl.
  rewrite ?Hfx, ?Hft.
  destruct fx as [raw|data]; [done|]. simpl. rewrite ?Hft.
  destruct ft as [raw|translations]; [done|].
  by destruct Htext as [[? ?]|[? ?]].
Qed.

(** The files after [main], whatever its outcome: a path other than the
    catalog's holds what it held, and so does the catalog's when [main]
    raises. *)
Lemma main_files dir w path :
  (path ≠ XCSTRINGS_PATH dir ∨ ∃ e, (main dir w).1 = Raise e) →
  files (main dir w).2 !! path = files w !! path.
Proof.
  destruct (files w !! XCSTRINGS_PATH dir) as [fx|] eqn:Hfx.
  2:{ by rewrite main_missing_catalog. }
  destruct (files w !! TRANSLATIONS_PATH dir) as [ft|] eqn:Hft.
  2:{ by rewrite main_missing_translations by eauto. }
  destruct fx as [raw|data].
  { by rewrite (main_unreadable_world dir w _ _ Hfx Hft) by eauto. }
  destruct ft as [raw|translations].
  { by rewrite (main_unreadable_world dir w _ _ Hfx Hft) by eauto. }
  by apply (main_files_documents dir w path data translations).
Qed.

(** [update_entry] raises nothing but [TypeError]. *)
Lemma update_entry_Raise entry t e :
  update_entry entry t = Raise e → e = TypeError.
Proof.
  destruct (is_dict entry) eqn:Hdict.
  - destruct entry; try done. rewrite update_entry_dict.
    destruct (dict_get "localizations" d) as [[]|]; congruence.
  - rewrite update_entry_not_dict by done. congruence.
Qed.

(** The loop raises [TypeError] when a pair's key has an entry that is not
    writable. *)
Lemma loop_unwritable trans : ∀ strs c w key t entry,
  (key, t) ∈ trans →
  dict_get key strs = Some entry →
  entry_writable entry = false →
  (for_each loop_body trans (JDict strs, c) w).1 = Raise TypeError.
Proof.
  induction trans as [|[key0 t0] trans IH];
    intros strs c w key t entry Hin Hget Hentry.
  - by apply elem_of_nil in Hin.
  - rewrite for_each_M_cons, loop_body_dict.
    destruct (dict_get key0 strs) as [entry0|] eqn:Hget0.
    + destruct (update_entry entry0 t0) as [entry1|e] eqn:Hupd.
      * assert (key ≠ key0) as Hne.
        { intros ->. rewrite Hget in Hget0. injection Hget0 as <-.
          assert (entry_writable entry = true)
            by (apply (update_entry_writable _ t0); eauto).
          congruence. }
        apply (IH _ _ _ key t entry); [|by rewrite dict_get_set_ne|done].
        apply elem_of_cons in Hin as [[= ? ?]|Hin]; [done|done].
      * simpl. by rewrite (update_entry_Raise _ _ _ Hupd).
    + apply (IH _ _ _ key t entry); [|done..].
      apply elem_of_cons in Hin as [[= -> ->]|Hin]; [congruence|done].
Qed.

(** Each pair is either counted or warned about. *)
Lemma known_unknown_length keys (trans : list (string * json)) :
  length (known_pairs keys trans) + length (unknown_pairs keys trans)
  = length trans.
Proof.
  unfold known_pairs, unknown_pairs.
  induction trans as [|item trans IH]; [done|].
  destruct (decide (item.1 ∈ keys)).
  - rewrite filter_cons_True, filter_cons_False by auto. simpl. lia.
  - rewrite filter_cons_False, filter_cons_True by auto. simpl. lia.
Qed.

(** The field names of a dictionary after an assignment: as before when the
    key was there, with the key added last otherwise. *)
Lemma dict_set_keys_order {V : Type} (k : string) (v : V)
  (d : list (string * V)) :
  (dict_set k v d).*1 = if dict_mem k d then d.*1 else (d.*1 ++ [k])%list.
Proof.
  destruct (dict_mem k d) eqn:Hmem.
  - apply dict_set_keys. by apply dict_mem_true.
  - apply dict_mem_false, dict_get_None in Hmem.
    by rewrite ExtractorMore.dict_set_fresh, fmap_app.
Qed.

End ImporterMore.



(** X8. When the entry of some pair's key is not writable (it is no object,
    or its [localizations] is present and no object), the importer raises
    [TypeError] and the catalog file is not rewritten. *)
Theorem X8_unwritable_entry_raises
  (dir : string) (w : world) (d strs trans : list (string * json))
  (key : string) (translation entry : json) :
  files w !! Importer.XCSTRINGS_PATH dir = Some (Document (JDict d)) →
  files w !! Importer.TRANSLATIONS_PATH dir = Some (Document (JDict trans)) →
  py_get (JDict d) "strings" (JDict []) = Return (JDict strs) →
  (key, translation) ∈ trans →
  dict_get key strs = Some entry →
  entry_writable entry = false →
  ∃ w', Importer.main dir w = (Raise TypeError, w') ∧ files w' = files w.
Proof.
  intros Hdata Htrans Hstrings Hin Hget Hentry.
  pose proof (ImporterMore.loop_unwritable trans strs 0 w key translation
                entry Hin Hget Hentry) as Hloop.
  pose proof (ImporterMore.loop_files trans (JDict strs, 0) w) as Hfiles.
  rewrite (ImporterFacts.main_reads_inputs _ _ _ _ Hdata Htrans), Hstrings.
  simpl.
  destruct (for_each Importer.loop_body trans (JDict strs, 0) w)
    as [[st|e] w1]; simpl in *; [done|].
  injection Hloop as ->. eauto.
Qed.

Lemma X8_witness :
  dict_get "Hello" scenario_unwritable_strings
  = Some (JDict [("localizations", JNull)]) ∧
  entry_writable (JDict [("localizations", JNull)]) = false ∧
  ∃ w',
    Importer.main scenario_dir scenario_world_unwritable
    = (Raise TypeError, w') ∧
    files w' = files scenario_world_unwritable.
Proof.
  split; [reflexivity|]. split; [reflexivity|].
  apply (X8_unwritable_entry_raises scenario_dir scenario_world_unwritable
           [("strings", JDict scenario_unwritable_strings)]
           scenario_unwritable_strings
           [("Quit", JStr "tuichu"); ("Hello", JStr "nihao")]
           "Hello" (JStr "nihao") (JDict [("localizations", JNull)])).
  - reflexivity.
  - reflexivity.
  - reflexivity.
  - right; left.
  - reflexivity.
  - reflexivity.
Defined.

(** X9. Whatever the outcome of a run, the importer leaves every path other
    than the catalog's as it was; the translations file, which is at another
    path, is never changed. *)
Theorem X9_importer_writes_only_catalog (dir : string) (w : world) :
  (∀ path, path ≠ Importer.XCSTRINGS_PATH dir →
     files (Importer.main dir w).2 !! path = files w !! path) ∧
  files (Importer.main dir w).2 !! Importer.TRANSLATIONS_PATH dir
  = files w !! Importer.TRANSLATIONS_PATH dir.
Proof.
  split.
  - intros path Hpath. apply ImporterMore.main_files. by left.
  - apply ImporterMore.main_files. left.
    intros Heq. by apply (ImporterFacts.paths_distinct dir).
Qed.

(** X10. An entry whose key is not in the translations input is written back
    exactly as it was read. *)
Theorem X10_other_entries_untouched
  (dir : string) (w w' : world) (data : json) (trans : list (string * json))
  (key : string) :
  files w !! Importer.XCSTRINGS_PATH dir = Some (Document data) →
  files w !! Importer.TRANSLATIONS_PATH dir = Some (Document (JDict trans)) →
  Importer.main dir w = (Return (), w') →
  key ∉ trans.*1 →
  ∃ data',
    files w' !! Importer.XCSTRINGS_PATH dir = Some (Document data') ∧
    lookup_path ["strings"; key] data' = lookup_path ["strings"; key] data.
Proof.
  intros Hdata Htrans Hmain Hkey.
  pose proof (ImporterFacts.main_Return _ _ _ _ _ Hdata Htrans Hmain)
    as (d & trans' & strings & [s' c'] & w1 & Hd & [= <-] & Hstrings
        & Hloop & Hw').
  subst data w'.
  eexists. split; [apply lookup_insert_eq|]. cbn [fst].
  destruct (is_dict strings) eqn:Hdict.
  - destruct strings as [| | | | | |strs]; try done.
    pose proof (ImporterFacts.loop_dict _ _ _ _ _ _ Hloop)
      as (strs' & Hs & Hkeys & _). simpl in Hs. subst s'.
    pose proof (ImporterFacts.loop_entries _ _ _ _ _ _ _ Hloop key) as Hentry.
    rewrite ImporterFacts.dict_get_reverse_None in Hentry by done.
    unfold Importer.data_after. simpl.
    destruct (dict_get "strings" d) as [strings|] eqn:Hget.
    + simpl in Hstrings. subst strings.
      rewrite (proj2 (dict_mem_true _ _)) by (rewrite Hget; eauto).
      simpl. rewrite dict_get_set_eq. simpl. by rewrite Hentry.
    + rewrite (proj2 (dict_mem_false _ _)) by done. simpl. by rewrite Hget.
  - apply ImporterFacts.loop_not_dict in Hloop as ([= -> ->] & _); [|done].
    by rewrite Hstrings, ImporterFacts.data_after_same.
Qed.

Lemma X10_witness :
  (Importer.main scenario_dir scenario_world).1 = Return () ∧
  ("Bye" ∉ scenario_translations.*1) ∧
  ∃ data',
    files (Importer.main scenario_dir scenario_world).2
    !! Importer.XCSTRINGS_PATH scenario_dir = Some (Document data') ∧
    lookup_path ["strings"; "Bye"] data'
    = lookup_path ["strings"; "Bye"] scenario_catalog.
Proof.
  split; [reflexivity|].
  split; [apply (bool_decide_unpack (_ ∉ _)); vm_compute; exact I|].
  apply (X10_other_entries_untouched scenario_dir scenario_world
           (Importer.main scenario_dir scenario_world).2
           scenario_catalog scenario_translations "Bye").
  - reflexivity.
  - reflexivity.
  - reflexivity.
  - apply (bool_decide_unpack (_ ∉ _)); vm_compute; exact I.
Defined.

(** X11. An update keeps the order of the fields: the fields of the entry
    stay where they are, [localizations] being added last when the entry had
    none; in [localizations] the locales stay where they are, a zh-Hans
    record that was there being replaced in place and a new one added
    last. *)
Theorem X11_update_keeps_field_order (entry translation entry' : json) :
  Importer.update_entry entry translation = Return entry' →
  ∃ d d' l',
    entry = JDict d ∧ entry' = JDict d' ∧
    d'.*1 = (if dict_mem "localizations" d then d.*1
             else (d.*1 ++ ["localizations"])%list) ∧
    dict_get "localizations" d' = Some (JDict l') ∧
    l'.*1 = match dict_get "localizations" d with
            | Some (JDict l) =>
                if dict_mem "zh-Hans" l then l.*1
                else (l.*1 ++ ["zh-Hans"])%list
            | _ => ["zh-Hans"]
            end.
Proof.
  intros Hrun.
  pose proof Hrun as (d & -> & ->)%ImporterFacts.update_entry_Return.
  rewrite ImporterFacts.update_entry_dict in Hrun.
  eexists d, _, _. split_and!; [done|done| | |].
  - unfold updated. apply ImporterMore.dict_set_keys_order.
  - apply ImporterFacts.updated_localizations.
  - rewrite ImporterMore.dict_set_keys_order.
    by destruct (dict_get "localizations" d) as [[]|].
Qed.

Lemma X11_witness :
  ∃ d d' l',
    JDict [("localizations", JDict [("zh-Hans", JNull); ("fr", JNull)]);
           ("comment", JStr "c")]
    = JDict d ∧
    JDict [("localizations",
            JDict [("zh-Hans", Importer.zh_hans_record (JStr "t"));
                   ("fr", JNull)]);
           ("comment", JStr "c")]
    = JDict d' ∧
    d'.*1 = (if dict_mem "localizations" d then d.*1
             else (d.*1 ++ ["localizations"])%list) ∧
    dict_get "localizations" d' = Some (JDict l') ∧
    l'.*1 = match dict_get "localizations" d with
            | Some (JDict l) =>
                if dict_mem "zh-Hans" l then l.*1
                else (l.*1 ++ ["zh-Hans"])%list
            | _ => ["zh-Hans"]
            end.
Proof.
  apply (X11_update_keeps_field_order _ (JStr "t")). reflexivity.
Defined.

(** X12. With an empty translations input the importer changes nothing and
    warns about nothing, whatever the catalog object holds, even a [strings]
    that is no mapping: it writes the document back as read and prints a
    count of 0. *)
Theorem X12_empty_translations
  (dir : string) (w : world) (d : list (string * json)) :
  files w !! Importer.XCSTRINGS_PATH dir = Some (Document (JDict d)) →
  files w !! Importer.TRANSLATIONS_PATH dir = Some (Document (JDict [])) →
  Importer.main dir w =
    (Return (),
     World (files w)
       (console w ++
          ["Successfully updated 0 translations in "
           +:+ Importer.XCSTRINGS_PATH dir])).
Proof.
  intros Hdata Htrans.
  rewrite (ImporterFacts.main_reads_inputs _ _ _ _ Hdata Htrans).
  unfold py_get, py_items. cbn [for_each mret M_ret fst snd].
  by rewrite ImporterFacts.data_after_same, insert_id.
Qed.

Lemma X12_witness :
  Importer.main scenario_dir scenario_world_empty_input
  = (Return (),
     World (files scenario_world_empty_input)
       (console scenario_world_empty_input ++
          ["Successfully updated 0 translations in "
           +:+ Importer.XCSTRINGS_PATH scenario_dir])).
Proof.
  apply (X12_empty_translations scenario_dir scenario_world_empty_input
           [("strings", JNull)]); reflexivity.
Defined.

(** ** The two scripts together *)

Module WorkflowFacts.

(** A loop of the extractor that returns has read every entry. *)
Lemma loop_Return_readable items : ∀ acc report,
  for_each Extractor.loop_body items acc = Return report →
  Forall (λ item, entry_readable item.2 = true) items.
Proof.
  induction items as [|[key value] items IH]; intros acc report; [done|].
  rewrite for_each_cons.
  intros (acc' & Hbody & Hrest)%result_bind_Return.
  apply Forall_cons. split; [|by apply (IH _ _ Hrest)].
  apply ExtractorFacts.loop_body_Return in Hbody as (b & Hb & _).
  apply ExtractorFacts.is_missing_readable. eauto.
Qed.

(** The keys of [report_of]. *)
Lemma elem_of_report_of key strs :
  key ∈ (report_of strs).*1 ↔
  ∃ entry, (key, entry) ∈ strs ∧ Extractor.is_missing entry = Return true.
Proof.
  unfold report_of. rewrite list_elem_of_fmap. split.
  - intros ([k item] & -> & ([k' entry] & [= -> ->] & Hin)%list_elem_of_fmap).
    apply list_elem_of_filter in Hin as [Hmissing Hin]. simpl in *.
    exists entry. split; [done|]. unfold found_missing in Hmissing.
    by destruct (Extractor.is_missing entry) as [[]|].
  - intros (entry & Hin & Hmissing).
    exists (key, report_entry key entry). split; [done|].
    apply list_elem_of_fmap. exists (key, entry). split; [done|].
    apply list_elem_of_filter. split; [|done].
    unfold found_missing. simpl. by rewrite Hmissing.
Qed.

Lemma filter_all {A : Type} (P : A → Prop) `{!∀ x, Decision (P x)}
  (l : list A) :
  Forall P l → filter P l = l.
Proof.
  induction 1 as [|x l Hx Hl IH]; [done|].
  by rewrite filter_cons_True, IH.
Qed.

Lemma filter_none {A : Type} (P : A → Prop) `{!∀ x, Decision (P x)}
  (l : list A) :
  Forall (λ x, ¬ P x) l → filter P l = [].
Proof.
  induction 1 as [|x l Hx Hl IH]; [done|].
  by rewrite filter_cons_False.
Qed.

End WorkflowFacts.

(** X13. Import then extract, for any translations input: on a catalog the
    extractor can read, the report made after the import holds exactly the
    keys that the report made before the import held and that are not keys
    of the translations input. *)
Theorem X13_import_removes_keys_from_report
  (dir : string) (w : world) (d strs trans : list (string * json)) :
  files w !! Importer.XCSTRINGS_PATH dir = Some (Document (JDict d)) →
  files w !! Importer.TRANSLATIONS_PATH dir = Some (Document (JDict trans)) →
  dict_get "strings" d = Some (JDict strs) →
  NoDup strs.*1 →
  Forall (λ item, entry_readable item.2 = true) strs →
  ∃ w1 w2 report,
    Importer.main dir w = (Return (), w1) ∧
    Extractor.main dir w1 = (Return (), w2) ∧
    files w2 !! Extractor.OUTPUT_PATH dir = Some (Document (JDict report)) ∧
    ∀ key, key ∈ report.*1 ↔ key ∈ (report_of strs).*1 ∧ (key ∉ trans.*1).
Proof.
  intros Hdata Htrans Hstrings Hnodup Hshape.
  assert (∀ key entry, dict_get key strs = Some entry →
                       entry_readable entry = true) as Hreadable.
  { intros key entry Hget%dict_get_elem_of.
    rewrite Forall_forall in Hshape. apply (Hshape _ Hget). }
  destruct (ImporterFacts.main_dict dir w d trans strs Hdata Htrans)
    as (strs' & w' & Hloop & Hkeys & Hmain).
  { simpl. by rewrite Hstrings. }
  { intros key entry _ Hget.
    by apply ImporterFacts.entry_readable_writable, (Hreadable key). }
  pose proof (ImporterFacts.loop_entries _ _ _ _ _ _ _ Hloop) as Hentries.
  assert (∀ key entry', dict_get key strs' = Some entry' →
            (key ∈ trans.*1 ∧ Extractor.is_missing entry' = Return false) ∨
            ((key ∉ trans.*1) ∧ dict_get key strs = Some entry')) as Hcases.
  { intros key entry' Hget'. specialize (Hentries key).
    destruct (dict_get key (reverse trans)) as [t|] eqn:Hrev.
    - left. split.
      + apply list_elem_of_fmap. exists (key, t). split; [done|].
        apply elem_of_reverse. by apply dict_get_elem_of.
      + destruct (dict_get key strs) as [entry|]; [|congruence].
        destruct Hentries as (e1 & Hupd & Hget1).
        apply ImporterFacts.update_entry_Return in Hupd as (de & -> & ->).
        rewrite Hget' in Hget1. injection Hget1 as ->.
        apply ImporterFacts.is_missing_updated.
    - right. split.
      + apply dict_get_None in Hrev.
        by rewrite fmap_reverse, elem_of_reverse in Hrev.
      + assert (dict_get key strs' = dict_get key strs) as <-
          by (by destruct (dict_get key strs)).
        done. }
  assert (Forall (λ item, entry_readable item.2 = true) strs') as Hshape'.
  { apply Forall_forall. intros [key entry'] Hin. simpl.
    assert (dict_get key strs' = Some entry') as Hget'
      by (apply dict_get_NoDup; [by rewrite Hkeys|done]).
    destruct (Hcases _ _ Hget') as [[_ Hm]|[_ Hget]].
    - apply ExtractorFacts.is_missing_readable. eauto.
    - by apply (Hreadable key). }
  set (data' := Importer.data_after (JDict d) (JDict strs')) in *.
  destruct (ExtractorFacts.main_report dir
              (World (<[Importer.XCSTRINGS_PATH dir := Document data']>
                        (files w))
                 (console w ++
                    (Importer.warning
                       <$> (unknown_pairs strs.*1 trans).*1) ++
                    ["Successfully updated "
                     +:+ pretty (length (known_pairs strs.*1 trans))
                     +:+ " translations in "
                     +:+ Importer.XCSTRINGS_PATH dir]))
              data' strs') as (report & Hextract & Hreport).
  { apply lookup_insert_eq. }
  { unfold data', Importer.data_after.
    rewrite (proj2 (dict_mem_true _ _)) by (rewrite Hstrings; eauto).
    simpl. by rewrite dict_get_set_eq. }
  { done. }
  eexists _, _, report. split_and!; [exact Hmain|exact Hextract| |].
  - apply lookup_insert_eq.
  - intros key. rewrite Hreport, WorkflowFacts.elem_of_report_of. split.
    + intros (entry' & Hin & Hmissing).
      apply dict_get_NoDup in Hin; [|by rewrite Hkeys].
      destruct (Hcases _ _ Hin) as [[_ Hm]|[Hnotin Hget]]; [congruence|].
      split; [|done]. exists entry'. split; [|done].
      by apply dict_get_elem_of.
    + intros [(entry & Hin & Hmissing) Hnotin].
      exists entry. split; [|done].
      apply dict_get_NoDup in Hin; [|done].
      specialize (Hentries key).
      rewrite ImporterFacts.dict_get_reverse_None in Hentries by done.
      apply dict_get_elem_of. by rewrite Hentries.
Qed.

Lemma X13_witness :
  dict_get "strings" scenario_fields = Some (JDict scenario_strings) ∧
  NoDup scenario_strings.*1 ∧
  (report_of scenario_strings).*1 = ["Hello"; "Open"] ∧
  ∃ w1 w2 report,
    Importer.main scenario_dir scenario_world = (Return (), w1) ∧
    Extractor.main scenario_dir w1 = (Return (), w2) ∧
    files w2 !! Extractor.OUTPUT_PATH scenario_dir
    = Some (Document (JDict report)) ∧
    ∀ key, key ∈ report.*1 ↔
           key ∈ (report_of scenario_strings).*1 ∧
           (key ∉ scenario_translations.*1).
Proof.
  split; [reflexivity|].
  split; [apply (bool_decide_unpack (NoDup _)); vm_compute; exact I|].
  split; [reflexivity|].
  apply (X13_import_removes_keys_from_report scenario_dir scenario_world
           scenario_fields scenario_strings scenario_translations).
  - reflexivity.
  - reflexivity.
  - reflexivity.
  - apply (bool_decide_unpack (NoDup _)); vm_compute; exact I.
  - repeat constructor.
Defined.

(** X14. The extractor's report feeds the importer: when the extractor reads
    the catalog without an exception, a translations input all of whose keys
    are keys of the report is imported without an exception and without a
    warning, and every pair is counted. *)
Theorem X14_report_keys_import_without_warning
  (dir : string) (w : world) (d strs trans report : list (string * json)) :
  files w !! Importer.XCSTRINGS_PATH dir = Some (Document (JDict d)) →
  files w !! Importer.TRANSLATIONS_PATH dir = Some (Document (JDict trans)) →
  py_get (JDict d) "strings" (JDict []) = Return (JDict strs) →
  Extractor.missing_translations (JDict d) = Return report →
  (∀ key, key ∈ trans.*1 → key ∈ report.*1) →
  ∃ data',
    Importer.main dir w =
      (Return (),
       World (<[Importer.XCSTRINGS_PATH dir := Document data']> (files w))
         (console w ++
            ["Successfully updated " +:+ pretty (length trans)
             +:+ " translations in " +:+ Importer.XCSTRINGS_PATH dir])).
Proof.
  intros Hdata Htrans Hstrings Hreport Hkeys.
  unfold Extractor.missing_translations in Hreport.
  rewrite Hstrings in Hreport. simpl in Hreport.
  pose proof (WorkflowFacts.loop_Return_readable _ _ _ Hreport) as Hshape.
  assert (∀ key, key ∈ trans.*1 → key ∈ strs.*1) as Hknown.
  { intros key Hkey%Hkeys.
    apply (ExtractorFacts.loop_report _ _ _ Hreport) in Hkey
      as [Hnil|(entry & Hin & _)]; [by apply elem_of_nil in Hnil|].
    apply list_elem_of_fmap. by exists (key, entry). }
  destruct (ImporterFacts.main_dict dir w d trans strs Hdata Htrans Hstrings)
    as (strs' & w1 & _ & _ & Hmain).
  { intros key entry _ Hget%dict_get_elem_of.
    apply ImporterFacts.entry_readable_writable.
    rewrite Forall_forall in Hshape. apply (Hshape _ Hget). }
  assert (known_pairs strs.*1 trans = trans) as Hall.
  { apply WorkflowFacts.filter_all, Forall_forall. intros [key t] Hin.
    apply Hknown, list_elem_of_fmap. by exists (key, t). }
  assert (unknown_pairs strs.*1 trans = []) as Hnone.
  { apply WorkflowFacts.filter_none, Forall_forall.
    intros [key t] Hin Hnotin. apply Hnotin, Hknown, list_elem_of_fmap.
    by exists (key, t). }
  eexists. rewrite Hmain, Hall, Hnone. reflexivity.
Qed.

Lemma X14_witness :
  Extractor.missing_translations scenario_catalog
  = Return (report_of scenario_strings) ∧
  ∃ data',
    Importer.main scenario_dir scenario_world_from_report
    = (Return (),
       World
         (<[Importer.XCSTRINGS_PATH scenario_dir := Document data']>
            (files scenario_world_from_report))
         (console scenario_world_from_report ++
            ["Successfully updated "
             +:+ pretty (length scenario_report_translations)
             +:+ " translations in "
             +:+ Importer.XCSTRINGS_PATH scenario_dir])).
Proof.
  split; [reflexivity|].
  apply (X14_report_keys_import_without_warning scenario_dir
           scenario_world_from_report scenario_fields scenario_strings
           scenario_report_translations (report_of scenario_strings)).
  - reflexivity.
  - reflexivity.
  - reflexivity.
  - reflexivity.
  - intros key Hkey.
    apply elem_of_cons in Hkey as [->|Hkey];
      [apply (bool_decide_unpack (_ ∈ _)); vm_compute; exact I|].
    apply list_elem_of_singleton in Hkey as ->.
    apply (bool_decide_unpack (_ ∈ _)); vm_compute; exact I.
Defined.

(** X15. Every pair of the translations input is either counted or warned
    about: after a run that returns, the console has gained warnings for
    some of the input's keys, in the order of the input, and the final line
    with the count, and the number of warnings plus the count is the number
    of pairs. *)
Theorem X15_every_pair_counted_or_warned
  (dir : string) (w w' : world) (data : json) (trans : list (string * json)) :
  files w !! Importer.XCSTRINGS_PATH dir = Some (Document data) →
  files w !! Importer.TRANSLATIONS_PATH dir = Some (Document (JDict trans)) →
  Importer.main dir w = (Return (), w') →
  ∃ warned n,
    console w' =
      (console w ++ (Importer.warning <$> warned) ++
         ["Successfully updated " +:+ pretty n +:+ " translations in "
          +:+ Importer.XCSTRINGS_PATH dir])%list ∧
    warned `sublist_of` trans.*1 ∧
    length warned + n = length trans.
Proof.
  intros Hdata Htrans Hmain.
  pose proof (ImporterFacts.main_Return _ _ _ _ _ Hdata Htrans Hmain)
    as (d & trans' & strings & [s' c'] & w1 & Hd & [= <-] & Hstrings
        & Hloop & Hw').
  subst w'. cbn [console snd].
  destruct (is_dict strings) eqn:Hdict.
  - destruct strings as [| | | | | |strs]; try done.
    pose proof (ImporterFacts.loop_dict _ _ _ _ _ _ Hloop)
      as (strs' & _ & _ & Hc & _ & Hconsole). simpl in Hc. subst c'.
    exists (unknown_pairs strs.*1 trans).*1, (length (known_pairs strs.*1 trans)).
    split_and!.
    + by rewrite Hconsole, <- app_assoc.
    + unfold unknown_pairs. by rewrite sublist_filter.
    + rewrite length_fmap, Nat.add_comm.
      apply ImporterMore.known_unknown_length.
  - apply ImporterFacts.loop_not_dict in Hloop
      as ([= -> ->] & _ & Hconsole); [|done].
    exists trans.*1, 0. split_and!.
    + by rewrite Hconsole, <- app_assoc.
    + done.
    + rewrite length_fmap. lia.
Qed.

Lemma X15_witness :
  (Importer.main scenario_dir scenario_world).1 = Return () ∧
  ∃ warned n,
    console (Importer.main scenario_dir scenario_world).2 =
      (console scenario_world ++ (Importer.warning <$> warned) ++
         ["Successfully updated " +:+ pretty n +:+ " translations in "
          +:+ Importer.XCSTRINGS_PATH scenario_dir])%list ∧
    warned `sublist_of` scenario_translations.*1 ∧
    length warned + n = length scenario_translations.
Proof.
  split; [reflexivity|].
  apply (X15_every_pair_counted_or_warned scenario_dir scenario_world
           (Importer.main scenario_dir scenario_world).2
           scenario_catalog scenario_translations); reflexivity.
Defined.

(** X16. The count is a count of pairs, not of changes: on a catalog whose
    [strings] is a mapping, a second run of the importer after one that
    returned prints the same warnings and the same count again. *)
Theorem X16_rerun_prints_same_lines
  (dir : string) (w w1 : world) (d strs trans : list (string * json)) :
  files w !! Importer.XCSTRINGS_PATH dir = Some (Document (JDict d)) →
  files w !! Importer.TRANSLATIONS_PATH dir = Some (Document (JDict trans)) →
  py_get (JDict d) "strings" (JDict []) = Return (JDict strs) →
  Importer.main dir w = (Return (), w1) →
  ∃ lines w2,
    console w1 = (console w ++ lines)%list ∧
    Importer.main dir w1 = (Return (), w2) ∧
    console w2 = (console w1 ++ lines)%list.
Proof.
  intros Hdata Htrans Hstrings Hmain.
  pose proof (ImporterFacts.main_Return _ _ _ _ _ Hdata Htrans Hmain)
    as (d0 & trans0 & strings & [s' c'] & w' & [= <-] & [= <-] & Hs & Hloop
        & Hw1).
  simpl in Hstrings. injection Hstrings as Hstrings.
  rewrite Hstrings in Hs. subst strings.
  pose proof (ImporterFacts.loop_dict _ _ _ _ _ _ Hloop)
    as (strs' & Hs' & Hkeys & Hc & Hfiles & Hconsole).
  simpl in Hs', Hc. subst s' c'. cbn [fst snd] in Hw1.
  pose proof (ImporterFacts.loop_entries _ _ _ _ _ _ _ Hloop) as Hentries.
  destruct (ImporterFacts.data_after_dict d (JDict strs')) as [d1 Hd1].
  destruct (ImporterFacts.data_after_strings d strs strs') as [_ Hnew];
    [done..|].
  rewrite Hd1 in Hnew, Hw1. simpl in Hnew.
  destruct (ImporterFacts.main_dict dir w1 d1 trans strs')
    as (strs2 & w2' & _ & _ & Hmain2).
  - subst w1. apply lookup_insert_eq.
  - subst w1. cbn [files].
    rewrite lookup_insert_ne by apply ImporterFacts.paths_distinct.
    by rewrite Hfiles.
  - simpl. by rewrite Hnew.
  - intros key entry' Hkey Hget'. specialize (Hentries key).
    assert (is_Some (dict_get key (reverse trans))) as [t Ht]
      by (apply dict_get_is_Some; by rewrite fmap_reverse, elem_of_reverse).
    rewrite Ht in Hentries.
    destruct (dict_get key strs) as [entry|]; [|congruence].
    destruct Hentries as (e1 & Hupd & Hget1).
    rewrite Hget' in Hget1. injection Hget1 as ->.
    by apply (ImporterFacts.update_entry_writable_after entry t).
  - eexists _, _. split; [|split; [exact Hmain2|]].
    + subst w1. cbn [console]. rewrite Hconsole, <- app_assoc. done.
    + cbn [console]. by rewrite Hkeys.
Qed.

Lemma X16_witness :
  (Importer.main scenario_dir scenario_world).1 = Return () ∧
  ∃ lines w2,
    console (Importer.main scenario_dir scenario_world).2
    = (console scenario_world ++ lines)%list ∧
    Importer.main scenario_dir (Importer.main scenario_dir scenario_world).2
    = (Return (), w2) ∧
    console w2
    = (console (Importer.main scenario_dir scenario_world).2 ++ lines)%list.
Proof.
  split; [reflexivity|].
  apply (X16_rerun_prints_same_lines scenario_dir scenario_world
           (Importer.main scenario_dir scenario_world).2
           scenario_fields scenario_strings scenario_translations);
    reflexivity.
Defined.

(** X17. When the catalog's [strings] is present but no mapping (a list or a
    string, say) and the run returns, no key was found in it: the document
    is written back as read, a warning is printed for every pair, and the
    count is 0. *)
Theorem X17_strings_not_a_mapping
  (dir : string) (w w' : world) (d trans : list (string * json))
  (strings : json) :
  files w !! Importer.XCSTRINGS_PATH dir = Some (Document (JDict d)) →
  files w !! Importer.TRANSLATIONS_PATH dir = Some (Document (JDict trans)) →
  dict_get "strings" d = Some strings →
  is_dict strings = false →
  Importer.main dir w = (Return (), w') →
  w' = World (files w)
         (console w ++ (Importer.warning <$> trans.*1) ++
            ["Successfully updated 0 translations in "
             +:+ Importer.XCSTRINGS_PATH dir]).
Proof.
  intros Hdata Htrans Hget Hdict Hmain.
  pose proof (ImporterFacts.main_Return _ _ _ _ _ Hdata Htrans Hmain)
    as (d0 & trans0 & strings0 & [s' c'] & w1 & [= <-] & [= <-] & Hs & Hloop
        & ->).
  rewrite Hget in Hs. simpl in Hs. subst strings0.
  apply ImporterFacts.loop_not_dict in Hloop
    as ([= -> ->] & Hfiles & Hconsole); [|done].
  cbn [fst snd].
  replace strings with (default (JDict []) (dict_get "strings" d)) at 1
    by (by rewrite Hget).
  rewrite ImporterFacts.data_after_same, Hfiles, Hconsole, <- app_assoc.
  by rewrite insert_id.
Qed.

Lemma X17_witness :
  is_dict (JList [JStr "Other"]) = false ∧
  (Importer.main scenario_dir
     (scenario_world_strings (JList [JStr "Other"]))).1 = Return () ∧
  (Importer.main scenario_dir
     (scenario_world_strings (JList [JStr "Other"]))).2
  = World (files (scenario_world_strings (JList [JStr "Other"])))
      (console (scenario_world_strings (JList [JStr "Other"])) ++
         (Importer.warning <$> scenario_translations.*1) ++
         ["Successfully updated 0 translations in "
          +:+ Importer.XCSTRINGS_PATH scenario_dir]).
Proof.
  split; [reflexivity|]. split; [reflexivity|].
  apply (X17_strings_not_a_mapping scenario_dir
           (scenario_world_strings (JList [JStr "Other"])) _
           [("strings", JList [JStr "Other"])] scenario_translations
           (JList [JStr "Other"])); reflexivity.
Defined.

(** X18. When the catalog's [strings] is [null], a number or a boolean and
    the translations input is not empty, the membership test of the first
    pair raises [TypeError]: nothing is printed and nothing is written. *)
Theorem X18_strings_not_iterable
  (dir : string) (w : world) (d trans : list (string * json))
  (strings : json) :
  files w !! Importer.XCSTRINGS_PATH dir = Some (Document (JDict d)) →
  files w !! Importer.TRANSLATIONS_PATH dir = Some (Document (JDict trans)) →
  dict_get "strings" d = Some strings →
  not_iterable strings = true →
  trans ≠ [] →
  Importer.main dir w = (Raise TypeError, w).
Proof.
  intros Hdata Htrans Hget Hraise Hne.
  rewrite (ImporterFacts.main_reads_inputs _ _ _ _ Hdata Htrans).
  simpl. rewrite Hget. simpl.
  destruct trans as [|[key t] trans]; [done|].
  rewrite ImporterFacts.for_each_M_cons.
  by destruct strings.
Qed.

Lemma X18_witness :
  not_iterable JNull = true ∧
  scenario_translations ≠ [] ∧
  Importer.main scenario_dir (scenario_world_strings JNull)
  = (Raise TypeError, scenario_world_strings JNull).
Proof.
  split; [reflexivity|]. split; [discriminate|].
  apply (X18_strings_not_iterable scenario_dir (scenario_world_strings JNull)
           [("strings", JNull)] scenario_translations JNull).
  - reflexivity.
  - reflexivity.
  - reflexivity.
  - reflexivity.
  - discriminate.
Defined.
